(** * The GitHub CI/CD bot: gate runners and the run-all orchestration

    A shallow embedding of [sqlmesh/integrations/github/cicd/command.py].

    The Python functions act on a [GithubController] object.  Within one
    run every controller operation is invoked at most once, so the
    controller is embedded as a record holding the outcome of each
    operation.  Every call made on the controller is appended to a log;
    a computation returns its log together with either a raised
    exception or a value.

    The operations that do the work ([run_tests], [update_pr_environment],
    [get_plan_summary], [deploy_to_prod], [try_merge_pr],
    [try_invalidate_pr_environment]) may raise; the [update_*_check]
    methods, which only report a status, and the configuration
    properties are taken to return. *)

From Stdlib Require Import List String Bool Arith Lia.
Import ListNotations.
Open Scope string_scope.
Open Scope list_scope.

(** ** Status protocol *)

Inductive GithubCheckStatus : Type :=
| QUEUED
| IN_PROGRESS
| COMPLETED.

(** Modelled from the spec: the enumeration is declared in controller.py,
    which is not part of the sources; the spec lists its five members and
    says that [is_success], [is_failure] and [is_action_required] hold
    only for SUCCESS, FAILURE and ACTION_REQUIRED respectively. *)
Inductive GithubCheckConclusion : Type :=
| SUCCESS
| NEUTRAL
| FAILURE
| SKIPPED
| ACTION_REQUIRED.

Definition is_success (c : GithubCheckConclusion) : bool :=
  match c with SUCCESS => true | _ => false end.

Definition is_failure (c : GithubCheckConclusion) : bool :=
  match c with FAILURE => true | _ => false end.

Definition is_action_required (c : GithubCheckConclusion) : bool :=
  match c with ACTION_REQUIRED => true | _ => false end.

(** The five checks the bot reports on. *)
Inductive Check : Type :=
| Tests
| RequiredApproval
| PREnvironment
| ProdPlanPreview
| ProdDeployment.

(** ** Exceptions

    Instances of Python's [Exception] that the code names, plus a
    catch-all.  [ConflictingPlanError] is a subclass of [PlanError]; the
    handlers of [_deploy_production] test for it first. *)
Inductive Exn : Type :=
| ConflictingPlanError (msg : string)
| PlanError (msg : string)
| TestFailure
| CICDBotError (msg : string)
| OtherException (msg : string).

Definition str (e : Exn) : string :=
  match e with
  | ConflictingPlanError m => m
  | PlanError m => m
  | TestFailure => ""
  | CICDBotError m => m
  | OtherException m => m
  end.

Definition isinstance_ConflictingPlanError (e : Exn) : bool :=
  match e with ConflictingPlanError _ => true | _ => false end.

Definition isinstance_PlanError (e : Exn) : bool :=
  match e with ConflictingPlanError _ | PlanError _ => true | _ => false end.

(** ** Commands read from a comment *)

(** Modelled from the spec: the command type is declared in
    controller.py; the spec gives its three variants. *)
Inductive BotCommand : Type :=
| INVALID
| DEPLOY_PROD
| UNSUPPORTED (text : string).

Definition is_invalid (c : BotCommand) : bool :=
  match c with INVALID => true | _ => false end.

Definition is_deploy_prod (c : BotCommand) : bool :=
  match c with DEPLOY_PROD => true | _ => false end.

Definition str_command (c : BotCommand) : string :=
  match c with
  | INVALID => "BotCommand.INVALID"
  | DEPLOY_PROD => "BotCommand.DEPLOY_PROD"
  | UNSUPPORTED t => t
  end.

(** ** The controller *)

Record TestResult : Type := { wasSuccessful : bool }.

Record GithubController : Type := {
  deploy_command_enabled : bool;
  do_required_approval_check : bool;
  is_comment_added : bool;
  get_command_from_comment : BotCommand;
  has_required_approval : bool;
  run_tests : Exn + (TestResult * string);
  update_pr_environment : Exn + unit;
  (* what [update_pr_environment_check(status=COMPLETED, exception=...)]
     returns: the conclusion the controller derived, if any *)
  pr_environment_conclusion : option Exn -> option GithubCheckConclusion;
  (* [get_plan_summary(prod_plan)] *)
  get_plan_summary : Exn + string;
  deploy_to_prod : Exn + unit;
  try_merge_pr : Exn + unit;
  try_invalidate_pr_environment : Exn + unit;
  (* [traceback.format_exc()] inside a handler *)
  format_exc : Exn -> string
}.

(** ** The log of calls made on the controller *)

Inductive Operation : Type :=
| Op_get_command_from_comment
| Op_has_required_approval
| Op_run_tests
| Op_update_pr_environment
| Op_get_plan_summary
| Op_deploy_to_prod
| Op_try_merge_pr
| Op_try_invalidate_pr_environment.

(** Keyword arguments of the [update_*_check] methods, besides [status]. *)
Record CheckArgs : Type := {
  conclusion : option GithubCheckConclusion;
  exception : option Exn;
  result : option TestResult;
  output : option string;
  summary : option string;
  skip_reason : option string
}.

Definition no_args : CheckArgs :=
  {| conclusion := None; exception := None; result := None;
     output := None; summary := None; skip_reason := None |}.

Definition with_conclusion (c : GithubCheckConclusion) : CheckArgs :=
  {| conclusion := Some c; exception := None; result := None;
     output := None; summary := None; skip_reason := None |}.

Inductive Event : Type :=
| Update (check : Check) (status : GithubCheckStatus) (args : CheckArgs)
| Invoke (op : Operation).

(** ** Computations: a log and an exception or a value *)

Definition M (A : Type) : Type := (list Event * (Exn + A))%type.

Definition ret {A} (a : A) : M A := ([], inr a).

Definition raise {A} (e : Exn) : M A := ([], inl e).

Definition bind {A B} (m : M A) (f : A -> M B) : M B :=
  match snd m with
  | inl e => (fst m, inl e)
  | inr a => (fst m ++ fst (f a), snd (f a))
  end.

Definition emit (ev : Event) : M unit := ([ev], inr tt).

(** [call op r]: invoke operation [op], whose outcome is [r]. *)
Definition call {A} (op : Operation) (r : Exn + A) : M A := ([Invoke op], r).

(** [try body except handler]: the handler runs after what the body
    logged, on the exception the body raised. *)
Definition try_except {A} (body : M A) (handler : Exn -> M A) : M A :=
  match snd body with
  | inl e => (fst body ++ fst (handler e), snd (handler e))
  | inr a => body
  end.

Declare Scope monad_scope.
Delimit Scope monad_scope with monad.

Notation "x <- m ;; k" := (bind m (fun x => k))
  (at level 61, m at next level, right associativity) : monad_scope.
Notation "m ;; k" := (bind m (fun _ => k))
  (at level 61, right associativity) : monad_scope.

Open Scope monad_scope.

Definition log_of {A} (m : M A) : list Event := fst m.
Definition outcome {A} (m : M A) : Exn + A := snd m.

(** ** The gate runners *)

Section Runners.

Variable controller : GithubController.

Definition update_required_approval_check
    (status : GithubCheckStatus) (args : CheckArgs) : M unit :=
  emit (Update RequiredApproval status args).

Definition update_test_check
    (status : GithubCheckStatus) (args : CheckArgs) : M unit :=
  emit (Update Tests status args).

(** Returns the conclusion the controller settled on; only a COMPLETED
    update has one. *)
Definition update_pr_environment_check
    (status : GithubCheckStatus) (exn : option Exn)
  : M (option GithubCheckConclusion) :=
  emit (Update PREnvironment status
          {| conclusion := None; exception := exn; result := None;
             output := None; summary := None; skip_reason := None |});;
  ret (match status with
       | COMPLETED => pr_environment_conclusion controller exn
       | _ => None
       end).

Definition update_prod_plan_preview_check
    (status : GithubCheckStatus) (args : CheckArgs) : M unit :=
  emit (Update ProdPlanPreview status args).

Definition update_prod_environment_check
    (status : GithubCheckStatus) (args : CheckArgs) : M unit :=
  emit (Update ProdDeployment status args).

Definition _check_required_approvers : M bool :=
  update_required_approval_check IN_PROGRESS no_args;;
  approved <- call Op_has_required_approval
                (inr (has_required_approval controller));;
  if (approved : bool) then
    update_required_approval_check COMPLETED (with_conclusion SUCCESS);;
    ret true
  else
    update_required_approval_check COMPLETED (with_conclusion NEUTRAL);;
    ret false.

Definition _run_tests : M bool :=
  update_test_check IN_PROGRESS no_args;;
  try_except
    (ro <- call Op_run_tests (run_tests controller);;
     update_test_check COMPLETED
       {| conclusion := Some NEUTRAL; exception := None;
          result := Some (fst ro); output := Some (snd ro);
          summary := None; skip_reason := None |};;
     ret (wasSuccessful (fst ro)))
    (fun e =>
       update_test_check COMPLETED
         {| conclusion := Some FAILURE; exception := None;
            result := None; output := Some (format_exc controller e);
            summary := None; skip_reason := None |};;
       ret false).

Definition _update_pr_environment : M bool :=
  update_pr_environment_check IN_PROGRESS None;;
  try_except
    (call Op_update_pr_environment (update_pr_environment controller);;
     conclusion <- update_pr_environment_check COMPLETED None;;
     ret (match conclusion with
          | Some c => is_success c
          | None => false
          end))
    (fun e =>
       conclusion <- update_pr_environment_check COMPLETED (Some e);;
       ret (match conclusion with
            | Some c => negb (is_failure c) && negb (is_action_required c)
            | None => false
            end)).

(** Python's [bool] on a string. *)
Definition truthy (s : string) : bool :=
  match s with EmptyString => false | _ => true end.

Definition _gen_prod_plan : M bool :=
  update_prod_plan_preview_check IN_PROGRESS no_args;;
  try_except
    (plan_summary <- call Op_get_plan_summary (get_plan_summary controller);;
     update_prod_plan_preview_check COMPLETED
       {| conclusion := Some SUCCESS; exception := None; result := None;
          output := None; summary := Some plan_summary;
          skip_reason := None |};;
     ret (truthy plan_summary))
    (fun e =>
       update_prod_plan_preview_check COMPLETED
         {| conclusion := Some FAILURE; exception := None; result := None;
            output := None; summary := Some (str e);
            skip_reason := None |};;
       ret false).

Definition skipped_because (reason : string) : CheckArgs :=
  {| conclusion := Some SKIPPED; exception := None; result := None;
     output := None; summary := None; skip_reason := Some reason |}.

Definition _deploy_production : M bool :=
  update_prod_environment_check IN_PROGRESS no_args;;
  try_except
    (call Op_deploy_to_prod (deploy_to_prod controller);;
     update_prod_environment_check COMPLETED (with_conclusion SUCCESS);;
     call Op_try_merge_pr (try_merge_pr controller);;
     call Op_try_invalidate_pr_environment
       (try_invalidate_pr_environment controller);;
     ret true)
    (fun e =>
       if isinstance_ConflictingPlanError e then
         update_prod_environment_check COMPLETED (skipped_because (str e));;
         ret false
       else if isinstance_PlanError e then
         update_prod_environment_check COMPLETED
           (with_conclusion ACTION_REQUIRED);;
         ret false
       else
         update_prod_environment_check COMPLETED (with_conclusion FAILURE);;
         ret false).

End Runners.

(** ** The run-all orchestration

    [_run_all] is embedded in pieces that follow the source from top to
    bottom; each piece names the lines it covers. *)

Section RunAll.

Variable controller : GithubController.

(** Lines 213-220: the required-approval gate.  Takes the current value
    of [has_required_approval] and returns the new one. *)
Definition required_approval_gate (has_required_approval : bool) : M bool :=
  if do_required_approval_check controller then
    if has_required_approval then
      update_required_approval_check COMPLETED (with_conclusion SKIPPED);;
      ret has_required_approval
    else
      update_required_approval_check QUEUED no_args;;
      _check_required_approvers controller
  else ret has_required_approval.

(** Lines 222-237: what happens when the tests did not pass. *)
Definition tests_failed (is_auto_deploying_prod : bool) : M unit :=
  update_pr_environment_check controller COMPLETED (Some TestFailure);;
  update_prod_plan_preview_check COMPLETED
    {| conclusion := Some SKIPPED; exception := None; result := None;
       output := None;
       summary := Some "Unit Test(s) Failed so skipping creating prod plan";
       skip_reason := None |};;
  (if is_auto_deploying_prod then
     update_prod_environment_check COMPLETED
       (skipped_because
          "Unit Test(s) Failed so skipping deploying to production")
   else ret tt);;
  raise (CICDBotError
           "Failed to run tests. See check status for more information.").

(** Lines 239-245: the production plan gate. *)
Definition prod_plan_gate (pr_environment_updated : bool) : M bool :=
  if pr_environment_updated then _gen_prod_plan controller
  else
    update_prod_plan_preview_check COMPLETED (with_conclusion SKIPPED);;
    ret false.

Definition reason_not_approved : string :=
  "Skipped Deploying to Production because a required approver has not approved".
Definition reason_env_not_updated : string :=
  "Skipped Deploying to Production because the PR environment was not updated".
Definition reason_plan_not_generated : string :=
  "Skipped Deploying to Production because the production plan could not be generated".
Definition reason_unknown : string :=
  "Skipped Deploying to Production for an unknown reason".

(** Lines 250-263: the chain that picks the skip reason. *)
Definition choose_skip_reason
    (has_required_approval pr_environment_updated prod_plan_generated : bool)
  : string :=
  if negb has_required_approval then reason_not_approved
  else if negb pr_environment_updated then reason_env_not_updated
  else if negb prod_plan_generated then reason_plan_not_generated
  else reason_unknown.

(** Lines 246-268: the deployment decision. *)
Definition deployment_decision
    (is_auto_deploying_prod has_required_approval
     pr_environment_updated prod_plan_generated : bool) : M bool :=
  if has_required_approval && prod_plan_generated then
    _deploy_production controller
  else if is_auto_deploying_prod then
    update_prod_environment_check COMPLETED
      (skipped_because
         (choose_skip_reason has_required_approval pr_environment_updated
            prod_plan_generated));;
    ret false
  else ret false.

Definition run_all_failed : Exn :=
  CICDBotError
    "A step of the run-all check failed. See check status for more information.".

(** Lines 269-276: the verdict. *)
Definition verdict
    (has_required_approval pr_environment_updated prod_plan_generated
     deployed_to_prod : bool) : M unit :=
  if negb pr_environment_updated
     || negb prod_plan_generated
     || (has_required_approval && negb deployed_to_prod)
  then raise run_all_failed
  else ret tt.

(** Lines 238-276: the gates that run once the tests have passed. *)
Definition after_tests
    (is_auto_deploying_prod has_required_approval : bool) : M unit :=
  pr_environment_updated <- _update_pr_environment controller;;
  prod_plan_generated <- prod_plan_gate pr_environment_updated;;
  deployed_to_prod <-
    deployment_decision is_auto_deploying_prod has_required_approval
      pr_environment_updated prod_plan_generated;;
  verdict has_required_approval pr_environment_updated prod_plan_generated
    deployed_to_prod.

(** Lines 207-211: the queue phase. *)
Definition queue_checks (is_auto_deploying_prod : bool) : M unit :=
  update_pr_environment_check controller QUEUED None;;
  update_prod_plan_preview_check QUEUED no_args;;
  update_test_check QUEUED no_args;;
  if is_auto_deploying_prod then
    update_prod_environment_check QUEUED no_args
  else ret tt.

(** Lines 207-276: everything after trigger gating. *)
Definition run_all_checks
    (is_auto_deploying_prod has_required_approval : bool) : M unit :=
  queue_checks is_auto_deploying_prod;;
  tests_passed <- _run_tests controller;;
  has_required_approval <- required_approval_gate has_required_approval;;
  if negb tests_passed then tests_failed is_auto_deploying_prod
  else after_tests is_auto_deploying_prod has_required_approval.

Definition _run_all : M unit :=
  let has_required_approval := false in
  let is_auto_deploying_prod :=
    deploy_command_enabled controller
    || do_required_approval_check controller in
  if is_comment_added controller then
    if negb (deploy_command_enabled controller) then ret tt
    else
      command <- call Op_get_command_from_comment
                   (inr (get_command_from_comment controller));;
      if is_invalid command then ret tt
      else if is_deploy_prod command then
        run_all_checks is_auto_deploying_prod true
      else
        raise (CICDBotError
                 (String.append "Unsupported command: " (str_command command)))
  else run_all_checks is_auto_deploying_prod has_required_approval.

End RunAll.

(** ** Reading a run *)

Scheme Equality for Check.
Scheme Equality for Operation.

(** The value a runner returned ([false] stands in when it raised; the
    runners never do, see the [_returns] lemmas). *)
Definition returned (m : M bool) : bool :=
  match snd m with inr b => b | inl _ => false end.

(** The updates a log holds for one check, oldest first. *)
Definition updates_of (g : Check) (l : list Event)
  : list (GithubCheckStatus * CheckArgs) :=
  flat_map (fun ev =>
              match ev with
              | Update g' s a => if Check_beq g g' then [(s, a)] else []
              | Invoke _ => []
              end) l.

(** The statuses a check went through. *)
Definition statuses_of (g : Check) (l : list Event) : list GithubCheckStatus :=
  map fst (updates_of g l).

(** The conclusion one COMPLETED update records.  The caller passes it,
    except for the PR environment check, where the controller derives it
    from the exception it is given. *)
Definition recorded_conclusion
    (controller : GithubController) (g : Check) (a : CheckArgs)
  : option GithubCheckConclusion :=
  match g with
  | PREnvironment => pr_environment_conclusion controller (exception a)
  | _ => conclusion a
  end.

(** Every conclusion recorded for a check in a log, oldest first: one
    entry per COMPLETED update. *)
Definition conclusions
    (controller : GithubController) (g : Check) (l : list Event)
  : list (option GithubCheckConclusion) :=
  flat_map (fun sa =>
              match fst sa with
              | COMPLETED => [recorded_conclusion controller g (snd sa)]
              | _ => []
              end) (updates_of g l).

(** The skip reasons recorded for a check. *)
Definition skip_reasons (g : Check) (l : list Event) : list string :=
  flat_map (fun sa =>
              match skip_reason (snd sa) with
              | Some r => [r]
              | None => []
              end) (updates_of g l).

(** How often an operation of the controller was invoked. *)
Definition invocations (op : Operation) (l : list Event) : nat :=
  List.length (filter (fun ev =>
                    match ev with
                    | Invoke op' => Operation_beq op op'
                    | Update _ _ _ => false
                    end) l).

(** Whether the log holds a status update of any check. *)
Definition touches_a_check (l : list Event) : bool :=
  existsb (fun ev => match ev with Update _ _ _ => true | Invoke _ => false end) l.

Section Observations.

Variable controller : GithubController.

Definition is_auto_deploying_prod : bool :=
  deploy_command_enabled controller || do_required_approval_check controller.

(** The comment is a deploy command and commands are enabled: approval
    is granted before any gate runs. *)
Definition granted_by_comment : bool :=
  is_comment_added controller
  && deploy_command_enabled controller
  && is_deploy_prod (get_command_from_comment controller).

(** The run gets past lines 195-206. *)
Definition passes_trigger_gating : bool :=
  negb (is_comment_added controller) || granted_by_comment.

(** The values the locals of [_run_all] take in a run that gets there. *)
Definition run_tests_passed : bool := returned (_run_tests controller).

Definition run_has_required_approval : bool :=
  returned (required_approval_gate controller granted_by_comment).

Definition run_pr_environment_updated : bool :=
  returned (_update_pr_environment controller).

Definition run_prod_plan_generated : bool :=
  returned (prod_plan_gate controller run_pr_environment_updated).

Definition run_deployed_to_prod : bool :=
  returned (deployment_decision controller is_auto_deploying_prod
              run_has_required_approval run_pr_environment_updated
              run_prod_plan_generated).

(** Neither best-effort follow-up of a deployment raises. *)
Definition follow_ups_return : Prop :=
  try_merge_pr controller = inr tt
  /\ try_invalidate_pr_environment controller = inr tt.

(** What trigger gating logs when it lets the run through. *)
Definition gating_log : list Event :=
  if is_comment_added controller then [Invoke Op_get_command_from_comment]
  else [].

End Observations.

(** ** Sample controllers *)

(** A controller that derives the PR environment conclusion the way the
    interface describes it: SUCCESS without an exception, FAILURE for a
    test failure, ACTION_REQUIRED for a plan error, FAILURE otherwise. *)
Definition conclusion_from_exception (e : option Exn)
  : option GithubCheckConclusion :=
  match e with
  | None => Some SUCCESS
  | Some (ConflictingPlanError _) | Some (PlanError _) => Some ACTION_REQUIRED
  | Some _ => Some FAILURE
  end.

Definition sample_controller
    (comment : option BotCommand) (enabled check approved : bool)
    (tests : Exn + (TestResult * string)) (env : Exn + unit)
    (plan : Exn + string) (deploy merge teardown : Exn + unit)
  : GithubController :=
  {| deploy_command_enabled := enabled;
     do_required_approval_check := check;
     is_comment_added := match comment with Some _ => true | None => false end;
     get_command_from_comment :=
       match comment with Some cmd => cmd | None => INVALID end;
     has_required_approval := approved;
     run_tests := tests;
     update_pr_environment := env;
     pr_environment_conclusion := conclusion_from_exception;
     get_plan_summary := plan;
     deploy_to_prod := deploy;
     try_merge_pr := merge;
     try_invalidate_pr_environment := teardown;
     format_exc := str |}.

Definition tests_ok : Exn + (TestResult * string) :=
  inr ({| wasSuccessful := true |}, "Ran 3 tests: OK").

Definition tests_ko : Exn + (TestResult * string) :=
  inr ({| wasSuccessful := false |}, "Ran 3 tests: FAILED (failures=1)").

(** Push-triggered, approval check on and granted, everything succeeds. *)
Definition happy_path : GithubController :=
  sample_controller None false true true tests_ok (inr tt)
    (inr "1 model to backfill") (inr tt) (inr tt) (inr tt).

(** Push-triggered, approval check on but not granted. *)
Definition approval_denied : GithubController :=
  sample_controller None false true false tests_ok (inr tt)
    (inr "1 model to backfill") (inr tt) (inr tt) (inr tt).

(** Push-triggered, approval check on, the tests fail. *)
Definition failing_tests : GithubController :=
  sample_controller None false true true tests_ko (inr tt)
    (inr "1 model to backfill") (inr tt) (inr tt) (inr tt).

(** A deploy command in a comment, approval check on, the tests fail. *)
Definition failing_tests_after_deploy_command : GithubController :=
  sample_controller (Some DEPLOY_PROD) true true false tests_ko (inr tt)
    (inr "1 model to backfill") (inr tt) (inr tt) (inr tt).

(** A deploy command in a comment, everything succeeds. *)
Definition deploy_command : GithubController :=
  sample_controller (Some DEPLOY_PROD) true true false tests_ok (inr tt)
    (inr "1 model to backfill") (inr tt) (inr tt) (inr tt).

(** A deploy command in a comment, the environment update fails. *)
Definition deploy_command_env_fails : GithubController :=
  sample_controller (Some DEPLOY_PROD) true true false tests_ok
    (inl (OtherException "engine unreachable"))
    (inr "1 model to backfill") (inr tt) (inr tt) (inr tt).

(** A deploy command in a comment, plan generation raises. *)
Definition deploy_command_plan_fails : GithubController :=
  sample_controller (Some DEPLOY_PROD) true true false tests_ok (inr tt)
    (inl (OtherException "cannot build plan")) (inr tt) (inr tt) (inr tt).

(** A comment that is not a command. *)
Definition unrelated_comment : GithubController :=
  sample_controller (Some INVALID) true true false tests_ok (inr tt)
    (inr "1 model to backfill") (inr tt) (inr tt) (inr tt).

(** A comment holding a command the bot does not handle. *)
Definition unsupported_comment : GithubController :=
  sample_controller (Some (UNSUPPORTED "/rollback")) true true false tests_ok
    (inr tt) (inr "1 model to backfill") (inr tt) (inr tt) (inr tt).

(** A comment while commands are disabled. *)
Definition comment_commands_disabled : GithubController :=
  sample_controller (Some DEPLOY_PROD) false true true tests_ok (inr tt)
    (inr "1 model to backfill") (inr tt) (inr tt) (inr tt).

(** The deployment meets a conflicting plan. *)
Definition conflicting_deploy : GithubController :=
  sample_controller None false true true tests_ok (inr tt)
    (inr "1 model to backfill")
    (inl (ConflictingPlanError "plan is stale")) (inr tt) (inr tt).

(** The deployment needs manual resolution. *)
Definition plan_error_deploy : GithubController :=
  sample_controller None false true true tests_ok (inr tt)
    (inr "1 model to backfill")
    (inl (PlanError "uncategorized change")) (inr tt) (inr tt).

(** The deployment breaks. *)
Definition broken_deploy : GithubController :=
  sample_controller None false true true tests_ok (inr tt)
    (inr "1 model to backfill")
    (inl (OtherException "connection reset")) (inr tt) (inr tt).

(** The deployment succeeds and merging the pull request raises. *)
Definition merge_raises : GithubController :=
  sample_controller None false true true tests_ok (inr tt)
    (inr "1 model to backfill") (inr tt)
    (inl (OtherException "merge conflict")) (inr tt).

(** The environment update returns normally and the controller reports
    the conclusion NEUTRAL for it. *)
Definition neutral_environment : GithubController :=
  {| deploy_command_enabled := false;
     do_required_approval_check := true;
     is_comment_added := false;
     get_command_from_comment := INVALID;
     has_required_approval := true;
     run_tests := tests_ok;
     update_pr_environment := inr tt;
     pr_environment_conclusion := fun e =>
       match e with
       | None => Some NEUTRAL
       | Some _ => conclusion_from_exception e
       end;
     get_plan_summary := inr "1 model to backfill";
     deploy_to_prod := inr tt;
     try_merge_pr := inr tt;
     try_invalidate_pr_environment := inr tt;
     format_exc := str |}.

(** The tests fail, and the controller concludes SKIPPED for a PR
    environment check it is handed a test failure for. *)
Definition failing_tests_skipped_environment : GithubController :=
  {| deploy_command_enabled := false;
     do_required_approval_check := true;
     is_comment_added := false;
     get_command_from_comment := INVALID;
     has_required_approval := true;
     run_tests := tests_ko;
     update_pr_environment := inr tt;
     pr_environment_conclusion := fun e =>
       match e with
       | Some TestFailure => Some SKIPPED
       | _ => conclusion_from_exception e
       end;
     get_plan_summary := inr "1 model to backfill";
     deploy_to_prod := inr tt;
     try_merge_pr := inr tt;
     try_invalidate_pr_environment := inr tt;
     format_exc := str |}.

(** ** The commands of the [github] group

    The body of each click command, applied to the controller stored in
    the click context (lines 51-59, 83-89, 109-117, 139-149, 181-187 and
    279-284).  A command returns [None]; the decorators that register it
    and report usage are left out. *)

Module Cli.
Section Commands.

Variable controller : GithubController.

Definition check_required_approvers : M unit :=
  ok <- _check_required_approvers controller;;
  if negb ok then
    raise (CICDBotError
             "Required approver has not approved the PR. See check status for more information.")
  else ret tt.

Definition run_tests : M unit :=
  ok <- _run_tests controller;;
  if negb ok then
    raise (CICDBotError
             "Failed to run tests. See check status for more information.")
  else ret tt.

Definition update_pr_environment : M unit :=
  ok <- _update_pr_environment controller;;
  if negb ok then
    raise (CICDBotError
             "Failed to update PR environment. See check status for more information.")
  else ret tt.

Definition gen_prod_plan : M unit :=
  update_prod_plan_preview_check IN_PROGRESS no_args;;
  ok <- _gen_prod_plan controller;;
  if negb ok then
    raise (CICDBotError
             "Failed to generate production plan. See check status for more information.")
  else ret tt.

Definition deploy_production : M unit :=
  ok <- _deploy_production controller;;
  if negb ok then
    raise (CICDBotError
             "Failed to deploy to production. See check status for more information.")
  else ret tt.

Definition run_all : M unit := _run_all controller.

End Commands.
End Cli.

(** ** More ways to read a log *)

(** The operations of the controller a log invokes, oldest first. *)
Definition operations_of (l : list Event) : list Operation :=
  flat_map (fun ev =>
              match ev with
              | Invoke op => [op]
              | Update _ _ _ => []
              end) l.

(** [subsequence xs ys]: [xs] is [ys] with some elements left out. *)
Fixpoint subsequence (xs ys : list Operation) {struct ys} : bool :=
  match xs, ys with
  | [], _ => true
  | _ :: _, [] => false
  | x :: xs', y :: ys' =>
      if Operation_beq x y then subsequence xs' ys' else subsequence xs ys'
  end.

(** The order in which [_run_all] reaches the operations. *)
Definition order_of_operations : list Operation :=
  [Op_get_command_from_comment; Op_run_tests; Op_has_required_approval;
   Op_update_pr_environment; Op_get_plan_summary; Op_deploy_to_prod;
   Op_try_merge_pr; Op_try_invalidate_pr_environment].

Definition status_rank (s : GithubCheckStatus) : nat :=
  match s with QUEUED => 0 | IN_PROGRESS => 1 | COMPLETED => 2 end.

(** A sequence of statuses that never goes back to an earlier one. *)
Fixpoint never_regresses (l : list GithubCheckStatus) : bool :=
  match l with
  | [] => true
  | a :: t =>
      match t with
      | [] => true
      | b :: _ => Nat.leb (status_rank a) (status_rank b) && never_regresses t
      end
  end.

(** What [_deploy_production] invokes: the follow-ups come after a
    deployment that returned, the teardown after a merge that returned. *)
Definition deploy_production_operations (c : GithubController)
  : list Operation :=
  match deploy_to_prod c with
  | inl _ => [Op_deploy_to_prod]
  | inr _ =>
      match try_merge_pr c with
      | inl _ => [Op_deploy_to_prod; Op_try_merge_pr]
      | inr _ =>
          [Op_deploy_to_prod; Op_try_merge_pr;
           Op_try_invalidate_pr_environment]
      end
  end.

(** Whether [_deploy_production] completes its check a second time. *)
Definition follow_up_raises (c : GithubController) : bool :=
  match deploy_to_prod c with
  | inl _ => false
  | inr _ =>
      match try_merge_pr c with
      | inl _ => true
      | inr _ =>
          match try_invalidate_pr_environment c with
          | inl _ => true
          | inr _ => false
          end
      end
  end.

(** The messages of the bot errors [_run_all] raises itself. *)
Definition tests_failed_message : string :=
  "Failed to run tests. See check status for more information.".

Definition run_all_failed_message : string :=
  "A step of the run-all check failed. See check status for more information.".

(** More sample controllers. *)

(** The test run itself breaks. *)
Definition broken_tests : GithubController :=
  sample_controller None false true true
    (inl (OtherException "cannot load fixtures")) (inr tt)
    (inr "1 model to backfill") (inr tt) (inr tt) (inr tt).

(** The plan summary comes back empty. *)
Definition empty_plan : GithubController :=
  sample_controller None false true true tests_ok (inr tt)
    (inr "") (inr tt) (inr tt) (inr tt).

(** Neither commands nor the approval check are enabled. *)
Definition no_deployment : GithubController :=
  sample_controller None false false false tests_ok (inr tt)
    (inr "1 model to backfill") (inr tt) (inr tt) (inr tt).

(** Commands are enabled, the approval check is not, a push triggers. *)
Definition commands_only : GithubController :=
  sample_controller None true false true tests_ok (inr tt)
    (inr "1 model to backfill") (inr tt) (inr tt) (inr tt).

(** ** Laws of the computations *)

Lemma bind_value {A B} (m : M A) (f : A -> M B) {a : A} :
  snd m = inr a -> bind m f = (fst m ++ fst (f a), snd (f a)).
Proof. intros H. unfold bind. now rewrite H. Qed.

Lemma updates_of_app g l1 l2 :
  updates_of g (l1 ++ l2) = updates_of g l1 ++ updates_of g l2.
Proof. unfold updates_of. apply flat_map_app. Qed.

Lemma conclusions_app c g l1 l2 :
  conclusions c g (l1 ++ l2) = conclusions c g l1 ++ conclusions c g l2.
Proof. unfold conclusions. now rewrite updates_of_app, flat_map_app. Qed.

Lemma invocations_app op l1 l2 :
  invocations op (l1 ++ l2) = invocations op l1 + invocations op l2.
Proof. unfold invocations. now rewrite filter_app, List.length_app. Qed.

(** ** The runners always return *)

Section Totality.

Variable c : GithubController.

Lemma check_required_approvers_returns :
  snd (_check_required_approvers c) = inr (has_required_approval c).
Proof.
  unfold _check_required_approvers.
  destruct (has_required_approval c) eqn:E; reflexivity.
Qed.

Lemma run_tests_returns :
  snd (_run_tests c) = inr (returned (_run_tests c)).
Proof.
  unfold returned, _run_tests.
  destruct (run_tests c) as [e | [r o]] eqn:E; reflexivity.
Qed.

Lemma update_pr_environment_returns :
  snd (_update_pr_environment c) = inr (returned (_update_pr_environment c)).
Proof.
  unfold returned, _update_pr_environment.
  destruct (update_pr_environment c) as [e | []] eqn:E; reflexivity.
Qed.

Lemma gen_prod_plan_returns :
  snd (_gen_prod_plan c) = inr (returned (_gen_prod_plan c)).
Proof.
  unfold returned, _gen_prod_plan.
  destruct (get_plan_summary c) as [e | s] eqn:E; reflexivity.
Qed.

Lemma deploy_production_returns :
  snd (_deploy_production c) = inr (returned (_deploy_production c)).
Proof.
  unfold returned, _deploy_production.
  destruct (deploy_to_prod c) as [[] | []] eqn:E; cbn;
    try reflexivity.
  destruct (try_merge_pr c) as [[] | []] eqn:E1; cbn; try reflexivity.
  all: destruct (try_invalidate_pr_environment c) as [[] | []] eqn:E2; cbn;
    reflexivity.
Qed.

End Totality.

(** ** How a run decomposes into its stages *)

Section Stages.

Variable c : GithubController.

Lemma queue_checks_returns auto : snd (queue_checks c auto) = inr tt.
Proof. destruct auto; reflexivity. Qed.

Lemma required_approval_gate_returns pre :
  snd (required_approval_gate c pre)
  = inr (returned (required_approval_gate c pre)).
Proof.
  unfold returned, required_approval_gate.
  destruct (do_required_approval_check c), pre; try reflexivity.
  rewrite (bind_value _ _ (a := tt)) by reflexivity.
  cbn [snd]. now rewrite check_required_approvers_returns.
Qed.

Lemma prod_plan_gate_returns env :
  snd (prod_plan_gate c env) = inr (returned (prod_plan_gate c env)).
Proof.
  unfold returned at 1, prod_plan_gate. destruct env.
  - now rewrite gen_prod_plan_returns.
  - reflexivity.
Qed.

Lemma deployment_decision_returns auto appr env plan :
  snd (deployment_decision c auto appr env plan)
  = inr (returned (deployment_decision c auto appr env plan)).
Proof.
  unfold returned at 1, deployment_decision.
  destruct (appr && plan).
  - now rewrite deploy_production_returns.
  - destruct auto; reflexivity.
Qed.

Lemma verdict_log appr env plan dep : fst (verdict appr env plan dep) = [].
Proof. unfold verdict. now destruct (_ || _). Qed.

Lemma after_tests_unfold auto appr :
  after_tests c auto appr =
    (fst (_update_pr_environment c)
     ++ fst (prod_plan_gate c (returned (_update_pr_environment c)))
     ++ fst (deployment_decision c auto appr
               (returned (_update_pr_environment c))
               (returned (prod_plan_gate c
                            (returned (_update_pr_environment c)))))
     ,
     snd (verdict appr
            (returned (_update_pr_environment c))
            (returned (prod_plan_gate c (returned (_update_pr_environment c))))
            (returned (deployment_decision c auto appr
               (returned (_update_pr_environment c))
               (returned (prod_plan_gate c
                            (returned (_update_pr_environment c)))))))).
Proof.
  unfold after_tests.
  rewrite (bind_value _ _ (update_pr_environment_returns c)).
  rewrite (bind_value _ _ (prod_plan_gate_returns _)).
  rewrite (bind_value _ _ (deployment_decision_returns _ _ _ _)).
  cbn [fst snd]. now rewrite verdict_log, app_nil_r.
Qed.

Lemma run_all_checks_unfold auto pre :
  run_all_checks c auto pre =
    (fst (queue_checks c auto)
     ++ fst (_run_tests c)
     ++ fst (required_approval_gate c pre)
     ++ fst (if negb (returned (_run_tests c)) then tests_failed c auto
             else after_tests c auto
                    (returned (required_approval_gate c pre))),
     snd (if negb (returned (_run_tests c)) then tests_failed c auto
          else after_tests c auto
                 (returned (required_approval_gate c pre)))).
Proof.
  unfold run_all_checks.
  rewrite (bind_value _ _ (queue_checks_returns auto)).
  rewrite (bind_value _ _ (run_tests_returns c)).
  rewrite (bind_value _ _ (required_approval_gate_returns pre)).
  reflexivity.
Qed.

Lemma run_all_gated :
  passes_trigger_gating c = true ->
  _run_all c =
    (gating_log c
     ++ fst (run_all_checks c (is_auto_deploying_prod c)
               (granted_by_comment c)),
     snd (run_all_checks c (is_auto_deploying_prod c)
            (granted_by_comment c))).
Proof.
  unfold passes_trigger_gating, granted_by_comment, _run_all, gating_log,
    is_auto_deploying_prod.
  destruct (is_comment_added c); cbn.
  - destruct (deploy_command_enabled c); cbn; [ | discriminate ].
    destruct (get_command_from_comment c); cbn; try discriminate.
    intros _. reflexivity.
  - intros _. now destruct (run_all_checks c _ false).
Qed.

(** The whole log of a run that gets past trigger gating and whose tests
    pass, and its outcome. *)
Lemma run_all_passed :
  passes_trigger_gating c = true ->
  run_tests_passed c = true ->
  _run_all c =
    (gating_log c
     ++ fst (queue_checks c (is_auto_deploying_prod c))
     ++ fst (_run_tests c)
     ++ fst (required_approval_gate c (granted_by_comment c))
     ++ fst (_update_pr_environment c)
     ++ fst (prod_plan_gate c (run_pr_environment_updated c))
     ++ fst (deployment_decision c (is_auto_deploying_prod c)
               (run_has_required_approval c) (run_pr_environment_updated c)
               (run_prod_plan_generated c)),
     snd (verdict (run_has_required_approval c)
            (run_pr_environment_updated c) (run_prod_plan_generated c)
            (run_deployed_to_prod c))).
Proof.
  intros Hg Ht. rewrite (run_all_gated Hg), run_all_checks_unfold.
  unfold run_tests_passed in Ht. rewrite Ht. cbn [negb].
  rewrite after_tests_unfold. reflexivity.
Qed.

(** The whole log of a run that gets past trigger gating and whose tests
    do not pass. *)
Lemma run_all_tests_failed :
  passes_trigger_gating c = true ->
  run_tests_passed c = false ->
  _run_all c =
    (gating_log c
     ++ fst (queue_checks c (is_auto_deploying_prod c))
     ++ fst (_run_tests c)
     ++ fst (required_approval_gate c (granted_by_comment c))
     ++ fst (tests_failed c (is_auto_deploying_prod c)),
     inl (CICDBotError
            "Failed to run tests. See check status for more information.")).
Proof.
  intros Hg Ht. rewrite (run_all_gated Hg), run_all_checks_unfold.
  unfold run_tests_passed in Ht. rewrite Ht. cbn [negb].
  now destruct (is_auto_deploying_prod c).
Qed.

End Stages.

(** ** The verdict of run-all *)

(** C1.  In a run of [_run_all] that gets past trigger gating and whose
    tests pass, the run raises the run-all bot error exactly when the PR
    environment was not updated, or the production plan was not
    generated, or approval is held and the deployment did not succeed;
    in every other case it returns normally.  Nothing else can happen. *)
Theorem run_all_verdict (c : GithubController) :
  passes_trigger_gating c = true ->
  run_tests_passed c = true ->
  (outcome (_run_all c) = inl run_all_failed
   <-> (run_pr_environment_updated c = false
        \/ run_prod_plan_generated c = false
        \/ (run_has_required_approval c = true
            /\ run_deployed_to_prod c = false)))
  /\ (outcome (_run_all c) = inr tt
      <-> ~ (run_pr_environment_updated c = false
             \/ run_prod_plan_generated c = false
             \/ (run_has_required_approval c = true
                 /\ run_deployed_to_prod c = false)))
  /\ (outcome (_run_all c) = inl run_all_failed
      \/ outcome (_run_all c) = inr tt).
Proof.
  intros Hg Ht. unfold outcome. rewrite (run_all_passed c Hg Ht).
  cbn [snd]. unfold verdict, run_all_failed.
  destruct (run_pr_environment_updated c), (run_prod_plan_generated c),
    (run_has_required_approval c), (run_deployed_to_prod c); cbn;
    repeat split; intros; try discriminate; try tauto;
    try (intuition discriminate); auto.
Qed.

Lemma run_all_verdict_witness :
  passes_trigger_gating approval_denied = true
  /\ run_tests_passed approval_denied = true
  /\ outcome (_run_all approval_denied) = inr tt.
Proof.
  split; [ reflexivity | split; [ reflexivity | ] ].
  apply (proj1 (proj2 (run_all_verdict approval_denied eq_refl eq_refl))).
  vm_compute. intros [H | [H | [H _]]]; discriminate H.
Defined.

(** ** The deployment runner as a fault boundary *)

(** C7.  Whatever [deploy_to_prod] raises, [_deploy_production] catches
    it: a conflicting plan completes the check SKIPPED with the error
    text as skip reason, another plan error completes it
    ACTION_REQUIRED, any other exception completes it FAILURE; each time
    the runner returns [false].  No controller makes the runner raise. *)
Theorem deploy_production_fault_boundary (c : GithubController) :
  (forall msg,
      deploy_to_prod c = inl (ConflictingPlanError msg) ->
      _deploy_production c =
        ([Update ProdDeployment IN_PROGRESS no_args;
          Invoke Op_deploy_to_prod;
          Update ProdDeployment COMPLETED (skipped_because msg)],
         inr false))
  /\ (forall msg,
         deploy_to_prod c = inl (PlanError msg) ->
         _deploy_production c =
           ([Update ProdDeployment IN_PROGRESS no_args;
             Invoke Op_deploy_to_prod;
             Update ProdDeployment COMPLETED (with_conclusion ACTION_REQUIRED)],
            inr false))
  /\ (forall e,
         deploy_to_prod c = inl e ->
         isinstance_PlanError e = false ->
         _deploy_production c =
           ([Update ProdDeployment IN_PROGRESS no_args;
             Invoke Op_deploy_to_prod;
             Update ProdDeployment COMPLETED (with_conclusion FAILURE)],
            inr false))
  /\ (exists b, outcome (_deploy_production c) = inr b).
Proof.
  repeat split.
  - intros msg H. unfold _deploy_production. now rewrite H.
  - intros msg H. unfold _deploy_production. now rewrite H.
  - intros e H He. unfold _deploy_production. rewrite H.
    destruct e; try discriminate He; reflexivity.
  - eexists. apply deploy_production_returns.
Qed.

Lemma deploy_production_fault_boundary_witness :
  deploy_to_prod conflicting_deploy = inl (ConflictingPlanError "plan is stale")
  /\ conclusions conflicting_deploy ProdDeployment
       (log_of (_deploy_production conflicting_deploy)) = [Some SKIPPED]
  /\ skip_reasons ProdDeployment
       (log_of (_deploy_production conflicting_deploy)) = ["plan is stale"]
  /\ outcome (_deploy_production conflicting_deploy) = inr false.
Proof.
  split; [ reflexivity | ].
  rewrite (proj1 (deploy_production_fault_boundary conflicting_deploy)
             "plan is stale" eq_refl).
  repeat split.
Defined.

(** ** What each stage writes to the log *)

Section StageLogs.

Variable c : GithubController.

Ltac other_check g := destruct g; try congruence; reflexivity.

Lemma gating_log_updates g : updates_of g (gating_log c) = [].
Proof. unfold gating_log. now destruct (is_comment_added c). Qed.

Lemma queue_checks_updates g auto :
  updates_of g (fst (queue_checks c auto)) =
    match g with
    | RequiredApproval => []
    | ProdDeployment => if auto then [(QUEUED, no_args)] else []
    | _ => [(QUEUED, no_args)]
    end.
Proof. destruct auto, g; reflexivity. Qed.

Lemma run_tests_updates g :
  g <> Tests -> updates_of g (fst (_run_tests c)) = [].
Proof.
  intros Hg. unfold _run_tests.
  destruct (run_tests c) as [e | [r o]]; other_check g.
Qed.

Lemma run_tests_conclusions :
  List.length (conclusions c Tests (fst (_run_tests c))) = 1.
Proof.
  unfold _run_tests. destruct (run_tests c) as [e | [r o]]; reflexivity.
Qed.

Lemma check_required_approvers_log :
  fst (_check_required_approvers c) =
    [Update RequiredApproval IN_PROGRESS no_args;
     Invoke Op_has_required_approval;
     Update RequiredApproval COMPLETED
       (with_conclusion (if has_required_approval c then SUCCESS else NEUTRAL))].
Proof.
  unfold _check_required_approvers.
  now destruct (has_required_approval c).
Qed.

Lemma required_approval_gate_log pre :
  fst (required_approval_gate c pre) =
    if do_required_approval_check c then
      if pre then
        [Update RequiredApproval COMPLETED (with_conclusion SKIPPED)]
      else
        [Update RequiredApproval QUEUED no_args;
         Update RequiredApproval IN_PROGRESS no_args;
         Invoke Op_has_required_approval;
         Update RequiredApproval COMPLETED
           (with_conclusion
              (if has_required_approval c then SUCCESS else NEUTRAL))]
    else [].
Proof.
  unfold required_approval_gate.
  destruct (do_required_approval_check c), pre; try reflexivity.
  rewrite (bind_value _ _ (a := tt)) by reflexivity.
  cbn [fst]. now rewrite check_required_approvers_log.
Qed.

Lemma required_approval_gate_value pre :
  returned (required_approval_gate c pre) =
    if do_required_approval_check c then
      if pre then true else has_required_approval c
    else pre.
Proof.
  unfold returned, required_approval_gate.
  destruct (do_required_approval_check c), pre; try reflexivity.
  rewrite (bind_value _ _ (a := tt)) by reflexivity.
  cbn [snd]. now rewrite check_required_approvers_returns.
Qed.

Lemma required_approval_gate_updates g pre :
  g <> RequiredApproval ->
  updates_of g (fst (required_approval_gate c pre)) = [].
Proof.
  intros Hg. rewrite required_approval_gate_log.
  destruct (do_required_approval_check c), pre; other_check g.
Qed.

Lemma tests_failed_log auto :
  fst (tests_failed c auto) =
    [Update PREnvironment COMPLETED
       {| conclusion := None; exception := Some TestFailure; result := None;
          output := None; summary := None; skip_reason := None |};
     Update ProdPlanPreview COMPLETED
       {| conclusion := Some SKIPPED; exception := None; result := None;
          output := None;
          summary := Some "Unit Test(s) Failed so skipping creating prod plan";
          skip_reason := None |}]
    ++ (if auto then
          [Update ProdDeployment COMPLETED
             (skipped_because
                "Unit Test(s) Failed so skipping deploying to production")]
        else []).
Proof. now destruct auto. Qed.

Lemma update_pr_environment_updates g :
  g <> PREnvironment -> updates_of g (fst (_update_pr_environment c)) = [].
Proof.
  intros Hg. unfold _update_pr_environment.
  destruct (update_pr_environment c) as [e | []]; other_check g.
Qed.

Lemma update_pr_environment_conclusions :
  conclusions c PREnvironment (fst (_update_pr_environment c)) =
    [pr_environment_conclusion c
       (match update_pr_environment c with
        | inl e => Some e
        | inr _ => None
        end)].
Proof.
  unfold _update_pr_environment.
  destruct (update_pr_environment c) as [e | []]; reflexivity.
Qed.

Lemma gen_prod_plan_updates g :
  g <> ProdPlanPreview -> updates_of g (fst (_gen_prod_plan c)) = [].
Proof.
  intros Hg. unfold _gen_prod_plan.
  destruct (get_plan_summary c) as [e | s]; other_check g.
Qed.

Lemma prod_plan_gate_updates g env :
  g <> ProdPlanPreview -> updates_of g (fst (prod_plan_gate c env)) = [].
Proof.
  intros Hg. unfold prod_plan_gate. destruct env.
  - now apply gen_prod_plan_updates.
  - other_check g.
Qed.

Lemma prod_plan_gate_conclusions env :
  List.length (conclusions c ProdPlanPreview (fst (prod_plan_gate c env))) = 1.
Proof.
  unfold prod_plan_gate, _gen_prod_plan. destruct env; [ | reflexivity ].
  destruct (get_plan_summary c) as [e | s]; reflexivity.
Qed.

Ltac deploy_cases :=
  unfold _deploy_production;
  destruct (deploy_to_prod c) as [[] | []]; cbn;
  [ .. | destruct (try_merge_pr c) as [[] | []]; cbn;
         [ .. | destruct (try_invalidate_pr_environment c) as [[] | []];
                cbn ] ].

Lemma deploy_production_updates g :
  g <> ProdDeployment -> updates_of g (fst (_deploy_production c)) = [].
Proof. intros Hg. deploy_cases; other_check g. Qed.

Lemma deployment_decision_updates g auto appr env plan :
  g <> ProdDeployment ->
  updates_of g (fst (deployment_decision c auto appr env plan)) = [].
Proof.
  intros Hg. unfold deployment_decision. destruct (appr && plan).
  - now apply deploy_production_updates.
  - destruct auto; other_check g.
Qed.

(** Without a raising follow-up the deployment runner completes its
    check once. *)
Lemma deploy_production_completes_once :
  follow_ups_return c ->
  List.length (conclusions c ProdDeployment (fst (_deploy_production c))) = 1.
Proof.
  intros [Hm Ht]. unfold _deploy_production. rewrite Hm, Ht.
  destruct (deploy_to_prod c) as [[] | []]; reflexivity.
Qed.

(** With one it may complete it a second time, never a third. *)
Lemma deploy_production_completes_twice_at_most :
  List.length (conclusions c ProdDeployment (fst (_deploy_production c))) <= 2.
Proof. deploy_cases; auto. Qed.

Lemma deployment_decision_skip_log auto appr env plan :
  appr && plan = false ->
  fst (deployment_decision c auto appr env plan) =
    if auto then
      [Update ProdDeployment COMPLETED
         (skipped_because (choose_skip_reason appr env plan))]
    else [].
Proof.
  intros H. unfold deployment_decision. rewrite H. now destruct auto.
Qed.

End StageLogs.

(** ** When the tests do not pass *)

(** Lines 222-225 complete the PR environment check with the
    [TestFailure] exception and pass no conclusion: the controller picks
    it.  With a controller that concludes SKIPPED for a test failure the
    check of a run whose tests failed ends SKIPPED, not FAILURE. *)
Lemma test_failure_may_conclude_skipped :
  passes_trigger_gating failing_tests_skipped_environment = true
  /\ run_tests_passed failing_tests_skipped_environment = false
  /\ updates_of PREnvironment
       (log_of (_run_all failing_tests_skipped_environment)) =
       [(QUEUED, no_args);
        (COMPLETED,
         {| conclusion := None; exception := Some TestFailure;
            result := None; output := None; summary := None;
            skip_reason := None |})]
  /\ conclusions failing_tests_skipped_environment PREnvironment
       (log_of (_run_all failing_tests_skipped_environment))
     = [Some SKIPPED]
  /\ Some SKIPPED <> Some FAILURE.
Proof. repeat split. discriminate. Qed.

(** C2, as the code has it.  In a run whose tests runner returns
    [false], the orchestrator ends by completing the PR environment
    check with the [TestFailure] exception and no conclusion of its own
    (the conclusion recorded is the one the controller derives from that
    exception), completing the plan preview SKIPPED and, when the
    deployment check was queued, completing it SKIPPED; these are the
    only completions of the three checks, and the run then raises the
    failed-tests bot error. *)
Theorem tests_failed_cascade (c : GithubController) :
  passes_trigger_gating c = true ->
  run_tests_passed c = false ->
  (exists before,
      log_of (_run_all c) =
        before
        ++ [Update PREnvironment COMPLETED
              {| conclusion := None; exception := Some TestFailure;
                 result := None; output := None; summary := None;
                 skip_reason := None |};
            Update ProdPlanPreview COMPLETED
              {| conclusion := Some SKIPPED; exception := None;
                 result := None; output := None;
                 summary :=
                   Some "Unit Test(s) Failed so skipping creating prod plan";
                 skip_reason := None |}]
        ++ (if is_auto_deploying_prod c then
              [Update ProdDeployment COMPLETED
                 (skipped_because
                    "Unit Test(s) Failed so skipping deploying to production")]
            else []))
  /\ conclusions c PREnvironment (log_of (_run_all c))
     = [pr_environment_conclusion c (Some TestFailure)]
  /\ conclusions c ProdPlanPreview (log_of (_run_all c)) = [Some SKIPPED]
  /\ (is_auto_deploying_prod c = true ->
      statuses_of ProdDeployment (log_of (_run_all c)) = [QUEUED; COMPLETED]
      /\ conclusions c ProdDeployment (log_of (_run_all c)) = [Some SKIPPED])
  /\ (is_auto_deploying_prod c = false ->
      updates_of ProdDeployment (log_of (_run_all c)) = [])
  /\ outcome (_run_all c) =
       inl (CICDBotError
              "Failed to run tests. See check status for more information.").
Proof.
  intros Hg Ht. unfold log_of, outcome.
  rewrite (run_all_tests_failed c Hg Ht). cbn [fst snd].
  rewrite tests_failed_log.
  assert (Henv :
            conclusions c PREnvironment
              (gating_log c
               ++ fst (queue_checks c (is_auto_deploying_prod c))
               ++ fst (_run_tests c)
               ++ fst (required_approval_gate c (granted_by_comment c))
               ++ [Update PREnvironment COMPLETED
                     {| conclusion := None; exception := Some TestFailure;
                        result := None; output := None; summary := None;
                        skip_reason := None |};
                   Update ProdPlanPreview COMPLETED
                     {| conclusion := Some SKIPPED; exception := None;
                        result := None; output := None;
                        summary :=
                          Some "Unit Test(s) Failed so skipping creating prod plan";
                        skip_reason := None |}]
               ++ (if is_auto_deploying_prod c then
                     [Update ProdDeployment COMPLETED
                        (skipped_because
                           "Unit Test(s) Failed so skipping deploying to production")]
                   else []))
            = [pr_environment_conclusion c (Some TestFailure)]).
  { unfold conclusions.
    rewrite !updates_of_app, gating_log_updates, queue_checks_updates,
      run_tests_updates, required_approval_gate_updates by discriminate.
    destruct (is_auto_deploying_prod c); reflexivity. }
  split; [ | split; [ | split; [ | split; [ | split ] ] ] ].
  - eexists. rewrite !app_assoc. reflexivity.
  - exact Henv.
  - unfold conclusions.
    rewrite !updates_of_app, gating_log_updates, queue_checks_updates,
      run_tests_updates, required_approval_gate_updates by discriminate.
    destruct (is_auto_deploying_prod c); reflexivity.
  - intros Ha. unfold statuses_of, conclusions.
    rewrite !updates_of_app, gating_log_updates, queue_checks_updates,
      run_tests_updates, required_approval_gate_updates by discriminate.
    rewrite Ha. split; reflexivity.
  - intros Ha.
    rewrite !updates_of_app, gating_log_updates, queue_checks_updates,
      run_tests_updates, required_approval_gate_updates by discriminate.
    rewrite Ha. reflexivity.
  - reflexivity.
Qed.

Lemma tests_failed_cascade_witness :
  passes_trigger_gating failing_tests = true
  /\ run_tests_passed failing_tests = false
  /\ conclusions failing_tests PREnvironment (log_of (_run_all failing_tests))
     = [pr_environment_conclusion failing_tests (Some TestFailure)]
  /\ conclusions failing_tests ProdPlanPreview
       (log_of (_run_all failing_tests)) = [Some SKIPPED].
Proof.
  pose proof (tests_failed_cascade failing_tests eq_refl eq_refl)
    as (_ & Henv & Hplan & _).
  split; [ reflexivity | split; [ reflexivity | ] ].
  split; [ exact Henv | exact Hplan ].
Defined.

(** ** The approval gate and the failed tests *)

(** The approval gate is not skipped when the tests fail.  Without a
    deploy command the approval check is queued, run and completed
    although the tests have failed; after a deploy command the check is
    completed SKIPPED rather than left alone. *)
Lemma approval_gate_runs_after_failed_tests :
  (passes_trigger_gating failing_tests = true
   /\ run_tests_passed failing_tests = false
   /\ granted_by_comment failing_tests = false
   /\ updates_of RequiredApproval (log_of (_run_all failing_tests)) =
        [(QUEUED, no_args); (IN_PROGRESS, no_args);
         (COMPLETED, with_conclusion SUCCESS)]
   /\ invocations Op_has_required_approval (log_of (_run_all failing_tests))
      = 1)
  /\ (passes_trigger_gating failing_tests_after_deploy_command = true
      /\ run_tests_passed failing_tests_after_deploy_command = false
      /\ granted_by_comment failing_tests_after_deploy_command = true
      /\ updates_of RequiredApproval
           (log_of (_run_all failing_tests_after_deploy_command)) =
           [(COMPLETED, with_conclusion SKIPPED)]).
Proof. repeat split. Qed.

(** C3, as the code has it.  In a run whose tests runner returns
    [false] the approval gate has already been gone through when the
    orchestrator acts on the failure: its log comes right before the
    completions of the failure.  With the required-approval check
    enabled, an approval granted by the deploy command completes the
    check SKIPPED without asking the controller, and otherwise the check
    is queued, run (asking the controller once) and completed SUCCESS or
    NEUTRAL.  The check is left untouched only when the required-approval
    check is disabled. *)
Theorem approval_gate_precedes_tests_failure (c : GithubController) :
  passes_trigger_gating c = true ->
  run_tests_passed c = false ->
  (exists before,
      log_of (_run_all c) =
        before
        ++ fst (required_approval_gate c (granted_by_comment c))
        ++ fst (tests_failed c (is_auto_deploying_prod c)))
  /\ (do_required_approval_check c = false ->
      updates_of RequiredApproval (log_of (_run_all c)) = []
      /\ invocations Op_has_required_approval (log_of (_run_all c)) = 0)
  /\ (do_required_approval_check c = true ->
      granted_by_comment c = true ->
      updates_of RequiredApproval (log_of (_run_all c)) =
        [(COMPLETED, with_conclusion SKIPPED)]
      /\ invocations Op_has_required_approval (log_of (_run_all c)) = 0)
  /\ (do_required_approval_check c = true ->
      granted_by_comment c = false ->
      updates_of RequiredApproval (log_of (_run_all c)) =
        [(QUEUED, no_args); (IN_PROGRESS, no_args);
         (COMPLETED,
          with_conclusion
            (if has_required_approval c then SUCCESS else NEUTRAL))]
      /\ invocations Op_has_required_approval (log_of (_run_all c)) = 1).
Proof.
  intros Hg Ht. unfold log_of.
  rewrite (run_all_tests_failed c Hg Ht). cbn [fst].
  assert (Hi : forall l,
             invocations Op_has_required_approval
               (gating_log c
                ++ fst (queue_checks c (is_auto_deploying_prod c))
                ++ fst (_run_tests c) ++ l
                ++ fst (tests_failed c (is_auto_deploying_prod c)))
             = invocations Op_has_required_approval l).
  { intros l. rewrite !invocations_app, tests_failed_log.
    unfold gating_log, _run_tests.
    destruct (is_comment_added c), (is_auto_deploying_prod c),
      (run_tests c) as [e | [r o]]; cbn; lia. }
  assert (Hu : forall l,
             updates_of RequiredApproval
               (gating_log c
                ++ fst (queue_checks c (is_auto_deploying_prod c))
                ++ fst (_run_tests c) ++ l
                ++ fst (tests_failed c (is_auto_deploying_prod c)))
             = updates_of RequiredApproval l).
  { intros l.
    rewrite !updates_of_app, gating_log_updates, queue_checks_updates,
      run_tests_updates, tests_failed_log by discriminate.
    destruct (is_auto_deploying_prod c); cbn; now rewrite app_nil_r. }
  rewrite Hi, Hu, required_approval_gate_log.
  split; [ | split; [ | split ] ].
  - eexists. rewrite !app_assoc. reflexivity.
  - intros Hd. now rewrite Hd.
  - intros Hd Hp. now rewrite Hd, Hp.
  - intros Hd Hp. rewrite Hd, Hp. now destruct (has_required_approval c).
Qed.

Lemma approval_gate_precedes_tests_failure_witness :
  passes_trigger_gating failing_tests = true
  /\ run_tests_passed failing_tests = false
  /\ do_required_approval_check failing_tests = true
  /\ granted_by_comment failing_tests = false
  /\ invocations Op_has_required_approval (log_of (_run_all failing_tests))
     = 1.
Proof.
  pose proof (approval_gate_precedes_tests_failure failing_tests
                eq_refl eq_refl) as (_ & _ & _ & H).
  destruct (H eq_refl eq_refl) as [_ Hi].
  split; [ reflexivity | split; [ reflexivity | split; [ reflexivity | ] ] ].
  split; [ reflexivity | exact Hi ].
Defined.

(** ** Which stage invokes which operation *)

Section StageInvocations.

Variable c : GithubController.

Ltac other_op op := destruct op; try congruence; reflexivity.

Lemma gating_log_invocations op :
  op <> Op_get_command_from_comment -> invocations op (gating_log c) = 0.
Proof.
  intros Ho. unfold gating_log. destruct (is_comment_added c); other_op op.
Qed.

Lemma queue_checks_invocations op auto :
  invocations op (fst (queue_checks c auto)) = 0.
Proof. now destruct auto. Qed.

Lemma run_tests_invocations op :
  op <> Op_run_tests -> invocations op (fst (_run_tests c)) = 0.
Proof.
  intros Ho. unfold _run_tests.
  destruct (run_tests c) as [e | [r o]]; other_op op.
Qed.

Lemma required_approval_gate_invocations op pre :
  op <> Op_has_required_approval ->
  invocations op (fst (required_approval_gate c pre)) = 0.
Proof.
  intros Ho. rewrite required_approval_gate_log.
  destruct (do_required_approval_check c), pre; other_op op.
Qed.

Lemma tests_failed_invocations op auto :
  invocations op (fst (tests_failed c auto)) = 0.
Proof. now destruct auto. Qed.

Lemma update_pr_environment_invocations op :
  op <> Op_update_pr_environment ->
  invocations op (fst (_update_pr_environment c)) = 0.
Proof.
  intros Ho. unfold _update_pr_environment.
  destruct (update_pr_environment c) as [e | []]; other_op op.
Qed.

Lemma prod_plan_gate_invocations op env :
  op <> Op_get_plan_summary ->
  invocations op (fst (prod_plan_gate c env)) = 0.
Proof.
  intros Ho. unfold prod_plan_gate, _gen_prod_plan. destruct env.
  - destruct (get_plan_summary c) as [e | s]; other_op op.
  - reflexivity.
Qed.

Lemma deployment_decision_invocations op auto appr env plan :
  op <> Op_deploy_to_prod -> op <> Op_try_merge_pr ->
  op <> Op_try_invalidate_pr_environment ->
  invocations op (fst (deployment_decision c auto appr env plan)) = 0.
Proof.
  intros H1 H2 H3. unfold deployment_decision. destruct (appr && plan).
  - unfold _deploy_production.
    destruct (deploy_to_prod c) as [[] | []]; cbn;
      [ other_op op .. | ].
    destruct (try_merge_pr c) as [[] | []]; cbn; [ other_op op .. | ].
    destruct (try_invalidate_pr_environment c) as [[] | []]; other_op op.
  - now destruct auto.
Qed.

(** In a run that gets past trigger gating, what the log holds about the
    approval check is what the approval gate wrote. *)
Lemma run_all_approval_log :
  passes_trigger_gating c = true ->
  updates_of RequiredApproval (log_of (_run_all c))
  = updates_of RequiredApproval
      (fst (required_approval_gate c (granted_by_comment c)))
  /\ invocations Op_has_required_approval (log_of (_run_all c))
     = invocations Op_has_required_approval
         (fst (required_approval_gate c (granted_by_comment c))).
Proof.
  intros Hg. unfold log_of.
  destruct (run_tests_passed c) eqn:Ht.
  - rewrite (run_all_passed c Hg Ht). cbn [fst]. split.
    + rewrite !updates_of_app, gating_log_updates, queue_checks_updates,
        run_tests_updates, update_pr_environment_updates,
        prod_plan_gate_updates, deployment_decision_updates by discriminate.
      now rewrite !app_nil_r.
    + rewrite !invocations_app, gating_log_invocations,
        queue_checks_invocations, run_tests_invocations,
        update_pr_environment_invocations, prod_plan_gate_invocations,
        deployment_decision_invocations by discriminate.
      lia.
  - rewrite (run_all_tests_failed c Hg Ht). cbn [fst]. split.
    + rewrite !updates_of_app, gating_log_updates, queue_checks_updates,
        run_tests_updates, tests_failed_log by discriminate.
      destruct (is_auto_deploying_prod c); cbn; now rewrite app_nil_r.
    + rewrite !invocations_app, gating_log_invocations,
        queue_checks_invocations, run_tests_invocations,
        tests_failed_invocations by discriminate.
      lia.
Qed.

End StageInvocations.

(** ** The required-approval gate *)

(** C9.  With the required-approval check enabled: when approval is
    already held the gate completes the check SKIPPED at once, without
    asking the controller; when it is not, the gate queues the check,
    runs it and hands back the controller's answer as the new
    [has_required_approval].  The same shows in the log of every run
    that gets past trigger gating. *)
Theorem required_approval_gate_skips_when_granted (c : GithubController) :
  do_required_approval_check c = true ->
  required_approval_gate c true =
    ([Update RequiredApproval COMPLETED (with_conclusion SKIPPED)], inr true)
  /\ required_approval_gate c false =
       ([Update RequiredApproval QUEUED no_args;
         Update RequiredApproval IN_PROGRESS no_args;
         Invoke Op_has_required_approval;
         Update RequiredApproval COMPLETED
           (with_conclusion
              (if has_required_approval c then SUCCESS else NEUTRAL))],
        inr (has_required_approval c))
  /\ (passes_trigger_gating c = true ->
      granted_by_comment c = true ->
      updates_of RequiredApproval (log_of (_run_all c)) =
        [(COMPLETED, with_conclusion SKIPPED)]
      /\ invocations Op_has_required_approval (log_of (_run_all c)) = 0
      /\ run_has_required_approval c = true)
  /\ (passes_trigger_gating c = true ->
      granted_by_comment c = false ->
      updates_of RequiredApproval (log_of (_run_all c)) =
        [(QUEUED, no_args); (IN_PROGRESS, no_args);
         (COMPLETED,
          with_conclusion
            (if has_required_approval c then SUCCESS else NEUTRAL))]
      /\ invocations Op_has_required_approval (log_of (_run_all c)) = 1
      /\ run_has_required_approval c = has_required_approval c).
Proof.
  intros Hd.
  split; [ | split; [ | split ] ].
  - unfold required_approval_gate. now rewrite Hd.
  - unfold required_approval_gate, _check_required_approvers. rewrite Hd.
    now destruct (has_required_approval c).
  - intros Hg Hp. destruct (run_all_approval_log c Hg) as [Hu Hi].
    rewrite Hu, Hi. unfold run_has_required_approval.
    rewrite required_approval_gate_value, required_approval_gate_log.
    now rewrite Hd, Hp.
  - intros Hg Hp. destruct (run_all_approval_log c Hg) as [Hu Hi].
    rewrite Hu, Hi. unfold run_has_required_approval.
    rewrite required_approval_gate_value, required_approval_gate_log.
    rewrite Hd, Hp. now destruct (has_required_approval c).
Qed.

Lemma required_approval_gate_skips_when_granted_witness :
  do_required_approval_check deploy_command = true
  /\ passes_trigger_gating deploy_command = true
  /\ granted_by_comment deploy_command = true
  /\ updates_of RequiredApproval (log_of (_run_all deploy_command)) =
       [(COMPLETED, with_conclusion SKIPPED)]
  /\ invocations Op_has_required_approval (log_of (_run_all deploy_command))
     = 0.
Proof.
  pose proof (required_approval_gate_skips_when_granted deploy_command
                eq_refl) as (_ & _ & H & _).
  destruct (H eq_refl eq_refl) as (Hu & Hi & _).
  split; [ reflexivity | split; [ reflexivity | split; [ reflexivity | ] ] ].
  split; [ exact Hu | exact Hi ].
Defined.

(** ** The PR environment runner *)

(** When the environment update returns normally and the controller
    concludes NEUTRAL, the conclusion is neither FAILURE nor
    ACTION_REQUIRED and still the runner returns [false]. *)
Lemma neutral_environment_is_not_updated :
  update_pr_environment neutral_environment = inr tt
  /\ conclusions neutral_environment PREnvironment
       (log_of (_update_pr_environment neutral_environment)) = [Some NEUTRAL]
  /\ is_failure NEUTRAL = false
  /\ is_action_required NEUTRAL = false
  /\ outcome (_update_pr_environment neutral_environment) = inr false.
Proof. repeat split. Qed.

(** C4, as the code has it.  [_update_pr_environment] completes the
    check once and always returns.  When the update returned normally
    the runner returns [true] exactly when the controller concluded
    SUCCESS; when the update raised, it returns [true] exactly when the
    controller reported a conclusion that is neither FAILURE nor
    ACTION_REQUIRED. *)
Theorem update_pr_environment_result (c : GithubController) :
  (update_pr_environment c = inr tt ->
   conclusions c PREnvironment (log_of (_update_pr_environment c)) =
     [pr_environment_conclusion c None]
   /\ (returned (_update_pr_environment c) = true
       <-> pr_environment_conclusion c None = Some SUCCESS))
  /\ (forall e,
         update_pr_environment c = inl e ->
         conclusions c PREnvironment (log_of (_update_pr_environment c)) =
           [pr_environment_conclusion c (Some e)]
         /\ (returned (_update_pr_environment c) = true
             <-> exists k,
                 pr_environment_conclusion c (Some e) = Some k
                 /\ k <> FAILURE /\ k <> ACTION_REQUIRED))
  /\ outcome (_update_pr_environment c)
     = inr (returned (_update_pr_environment c)).
Proof.
  split; [ | split ].
  - intros H. unfold log_of, returned, _update_pr_environment. rewrite H.
    cbn. split; [ reflexivity | ].
    destruct (pr_environment_conclusion c None) as [[] | ]; cbn;
      split; intros; congruence.
  - intros e H. unfold log_of, returned, _update_pr_environment. rewrite H.
    cbn. split; [ reflexivity | ].
    destruct (pr_environment_conclusion c (Some e)) as [k | ]; cbn.
    + split.
      * intros Hk. exists k. split; [ reflexivity | ].
        destruct k; cbn in Hk; try discriminate Hk; split; discriminate.
      * intros (k' & Hk & Hf & Ha). injection Hk as <-.
        destruct k; try reflexivity; congruence.
    + split; [ discriminate | intros (k & Hk & _); discriminate ].
  - apply update_pr_environment_returns.
Qed.

Lemma update_pr_environment_result_witness :
  update_pr_environment deploy_command_env_fails
  = inl (OtherException "engine unreachable")
  /\ conclusions deploy_command_env_fails PREnvironment
       (log_of (_update_pr_environment deploy_command_env_fails))
     = [Some FAILURE]
  /\ returned (_update_pr_environment deploy_command_env_fails) = false.
Proof.
  pose proof (proj1 (proj2
                (update_pr_environment_result deploy_command_env_fails))
                (OtherException "engine unreachable") eq_refl) as [Hc _].
  split; [ reflexivity | split; [ exact Hc | reflexivity ] ].
Defined.

(** ** The deployment decision *)

(** In a run that gets past trigger gating and whose tests pass, what the
    log holds about the deployment check is the queueing and what the
    deployment decision wrote. *)
Lemma run_all_deployment_log (c : GithubController) :
  passes_trigger_gating c = true ->
  run_tests_passed c = true ->
  updates_of ProdDeployment (log_of (_run_all c))
  = (if is_auto_deploying_prod c then [(QUEUED, no_args)] else [])
    ++ updates_of ProdDeployment
         (fst (deployment_decision c (is_auto_deploying_prod c)
                 (run_has_required_approval c) (run_pr_environment_updated c)
                 (run_prod_plan_generated c)))
  /\ invocations Op_deploy_to_prod (log_of (_run_all c))
     = invocations Op_deploy_to_prod
         (fst (deployment_decision c (is_auto_deploying_prod c)
                 (run_has_required_approval c) (run_pr_environment_updated c)
                 (run_prod_plan_generated c))).
Proof.
  intros Hg Ht. unfold log_of. rewrite (run_all_passed c Hg Ht). cbn [fst].
  split.
  - rewrite !updates_of_app, gating_log_updates, queue_checks_updates,
      run_tests_updates, required_approval_gate_updates,
      update_pr_environment_updates, prod_plan_gate_updates by discriminate.
    reflexivity.
  - rewrite !invocations_app, gating_log_invocations,
      queue_checks_invocations, run_tests_invocations,
      required_approval_gate_invocations, update_pr_environment_invocations,
      prod_plan_gate_invocations by discriminate.
    reflexivity.
Qed.

(** The chain of lines 250-263, case by case. *)
Lemma choose_skip_reason_cases :
  (forall env plan, choose_skip_reason false env plan = reason_not_approved)
  /\ (forall plan, choose_skip_reason true false plan = reason_env_not_updated)
  /\ choose_skip_reason true true false = reason_plan_not_generated
  /\ choose_skip_reason true true true = reason_unknown.
Proof. repeat split. Qed.

(** C5.  In a run where the deployment check was queued and the
    deployment does not run, the check is completed SKIPPED, once, with
    the reason the priority chain picks: no approval first, then the
    environment not updated, then the plan not generated, and the
    unknown reason last.  Without approval the recorded reason is the
    missing approval, whatever the other two gates did. *)
Theorem skip_reason_priority (c : GithubController) :
  passes_trigger_gating c = true ->
  run_tests_passed c = true ->
  is_auto_deploying_prod c = true ->
  run_has_required_approval c && run_prod_plan_generated c = false ->
  updates_of ProdDeployment (log_of (_run_all c)) =
    [(QUEUED, no_args);
     (COMPLETED,
      skipped_because
        (choose_skip_reason (run_has_required_approval c)
           (run_pr_environment_updated c) (run_prod_plan_generated c)))]
  /\ invocations Op_deploy_to_prod (log_of (_run_all c)) = 0
  /\ (run_has_required_approval c = false ->
      skip_reasons ProdDeployment (log_of (_run_all c))
      = [reason_not_approved])
  /\ (run_has_required_approval c = true ->
      run_pr_environment_updated c = false ->
      skip_reasons ProdDeployment (log_of (_run_all c))
      = [reason_env_not_updated])
  /\ (run_has_required_approval c = true ->
      run_pr_environment_updated c = true ->
      run_prod_plan_generated c = false ->
      skip_reasons ProdDeployment (log_of (_run_all c))
      = [reason_plan_not_generated])
  /\ ((forall env plan,
          choose_skip_reason false env plan = reason_not_approved)
      /\ (forall plan,
             choose_skip_reason true false plan = reason_env_not_updated)
      /\ choose_skip_reason true true false = reason_plan_not_generated
      /\ choose_skip_reason true true true = reason_unknown).
Proof.
  intros Hg Ht Ha Hs.
  destruct (run_all_deployment_log c Hg Ht) as [Hu Hi].
  unfold skip_reasons. rewrite Hu, Hi.
  rewrite (deployment_decision_skip_log c _ _ _ _ Hs), Ha.
  split; [ reflexivity | split; [ reflexivity | ] ].
  split; [ | split; [ | split ] ].
  - intros H. now rewrite H.
  - intros H1 H2. now rewrite H1, H2.
  - intros H1 H2 H3. now rewrite H1, H2, H3.
  - exact choose_skip_reason_cases.
Qed.

Lemma skip_reason_priority_witness :
  passes_trigger_gating approval_denied = true
  /\ run_tests_passed approval_denied = true
  /\ is_auto_deploying_prod approval_denied = true
  /\ run_has_required_approval approval_denied
     && run_prod_plan_generated approval_denied = false
  /\ skip_reasons ProdDeployment (log_of (_run_all approval_denied))
     = [reason_not_approved].
Proof.
  pose proof (skip_reason_priority approval_denied
                eq_refl eq_refl eq_refl eq_refl) as (_ & _ & H & _).
  split; [ reflexivity | split; [ reflexivity | split; [ reflexivity | ] ] ].
  split; [ reflexivity | exact (H eq_refl) ].
Defined.

(** C10.  The last branch of the chain, the unknown reason, is never
    taken.  Whenever the deployment check was queued and the deployment
    does not run, approval is missing, or the environment was not
    updated, or the plan was not generated; the one skip reason recorded
    is one of the first three and differs from the unknown reason. *)
Theorem unknown_reason_unreachable (c : GithubController) :
  passes_trigger_gating c = true ->
  run_tests_passed c = true ->
  is_auto_deploying_prod c = true ->
  run_has_required_approval c && run_prod_plan_generated c = false ->
  (run_has_required_approval c = false
   \/ run_pr_environment_updated c = false
   \/ run_prod_plan_generated c = false)
  /\ choose_skip_reason (run_has_required_approval c)
       (run_pr_environment_updated c) (run_prod_plan_generated c)
     <> reason_unknown
  /\ exists reason,
      skip_reasons ProdDeployment (log_of (_run_all c)) = [reason]
      /\ reason <> reason_unknown
      /\ (reason = reason_not_approved
          \/ reason = reason_env_not_updated
          \/ reason = reason_plan_not_generated).
Proof.
  intros Hg Ht Ha Hs.
  destruct (run_all_deployment_log c Hg Ht) as [Hu _].
  unfold skip_reasons. rewrite Hu.
  rewrite (deployment_decision_skip_log c _ _ _ _ Hs), Ha.
  destruct (run_has_required_approval c), (run_pr_environment_updated c),
    (run_prod_plan_generated c); try discriminate Hs; cbn;
    (split; [ tauto | split; [ discriminate | ] ]);
    eexists; (split; [ reflexivity | split; [ discriminate | tauto ] ]).
Qed.

Lemma unknown_reason_unreachable_witness :
  passes_trigger_gating deploy_command_plan_fails = true
  /\ run_tests_passed deploy_command_plan_fails = true
  /\ is_auto_deploying_prod deploy_command_plan_fails = true
  /\ run_has_required_approval deploy_command_plan_fails
     && run_prod_plan_generated deploy_command_plan_fails = false
  /\ choose_skip_reason (run_has_required_approval deploy_command_plan_fails)
       (run_pr_environment_updated deploy_command_plan_fails)
       (run_prod_plan_generated deploy_command_plan_fails)
     <> reason_unknown.
Proof.
  pose proof (unknown_reason_unreachable deploy_command_plan_fails
                eq_refl eq_refl eq_refl eq_refl) as (_ & H & _).
  split; [ reflexivity | split; [ reflexivity | split; [ reflexivity | ] ] ].
  split; [ reflexivity | exact H ].
Defined.

(** ** How often a check is completed *)

(** When the deployment succeeds and merging the pull request raises,
    the handlers of [_deploy_production] catch the exception: the
    deployment check, already completed SUCCESS, is completed again as
    FAILURE and the runner returns [false]. *)
Lemma merge_failure_overwrites_success :
  deploy_to_prod merge_raises = inr tt
  /\ try_merge_pr merge_raises = inl (OtherException "merge conflict")
  /\ conclusions merge_raises ProdDeployment
       (log_of (_deploy_production merge_raises))
     = [Some SUCCESS; Some FAILURE]
  /\ outcome (_deploy_production merge_raises) = inr false
  /\ conclusions merge_raises ProdDeployment (log_of (_run_all merge_raises))
     = [Some SUCCESS; Some FAILURE]
  /\ outcome (_run_all merge_raises) = inl run_all_failed.
Proof. repeat split. Qed.

Section Completions.

Variable c : GithubController.

Lemma conclusions_of_no_updates g l :
  updates_of g l = [] -> conclusions c g l = [].
Proof. intros H. unfold conclusions. now rewrite H. Qed.

Lemma queue_checks_conclusions g auto :
  conclusions c g (fst (queue_checks c auto)) = [].
Proof. now destruct auto, g. Qed.

Lemma required_approval_gate_conclusions pre :
  List.length
    (conclusions c RequiredApproval (fst (required_approval_gate c pre))) <= 1.
Proof.
  rewrite required_approval_gate_log.
  destruct (do_required_approval_check c), pre; cbn; lia.
Qed.

Lemma tests_failed_conclusions g auto :
  List.length (conclusions c g (fst (tests_failed c auto))) <= 1.
Proof. destruct auto, g; cbn; lia. Qed.

Lemma tests_failed_conclusions_tests auto :
  conclusions c Tests (fst (tests_failed c auto)) = [].
Proof. now destruct auto. Qed.

Lemma tests_failed_conclusions_approval auto :
  conclusions c RequiredApproval (fst (tests_failed c auto)) = [].
Proof. now destruct auto. Qed.

Lemma deployment_decision_conclusions auto appr env plan :
  follow_ups_return c ->
  List.length
    (conclusions c ProdDeployment
       (fst (deployment_decision c auto appr env plan))) <= 1.
Proof.
  intros Hf. unfold deployment_decision. destruct (appr && plan).
  - now rewrite deploy_production_completes_once.
  - destruct auto; cbn; lia.
Qed.

Lemma run_all_gated_out g :
  passes_trigger_gating c = false -> updates_of g (log_of (_run_all c)) = [].
Proof.
  unfold passes_trigger_gating, granted_by_comment, _run_all, log_of.
  destruct (is_comment_added c); cbn; [ | discriminate ].
  destruct (deploy_command_enabled c); cbn; [ | reflexivity ].
  destruct (get_command_from_comment c); cbn;
    try discriminate; reflexivity.
Qed.

(** The number of completions of a check in a run, stage by stage. *)
Lemma run_all_completions g :
  (g = ProdDeployment -> follow_ups_return c) ->
  List.length (conclusions c g (log_of (_run_all c))) <= 1.
Proof.
  intros Hf.
  destruct (passes_trigger_gating c) eqn:Hg;
    [ | rewrite conclusions_of_no_updates by (now apply run_all_gated_out);
        cbn; lia ].
  unfold log_of. destruct (run_tests_passed c) eqn:Ht.
  - rewrite (run_all_passed c Hg Ht). cbn [fst].
    rewrite !conclusions_app, !List.length_app.
    rewrite (conclusions_of_no_updates _ _ (gating_log_updates c g)).
    rewrite queue_checks_conclusions. cbn [List.length].
    destruct g.
    + rewrite run_tests_conclusions.
      rewrite !conclusions_of_no_updates;
        [ cbn; lia
        | now apply deployment_decision_updates
        | now apply prod_plan_gate_updates
        | now apply update_pr_environment_updates
        | now apply required_approval_gate_updates ].
    + pose proof (required_approval_gate_conclusions (granted_by_comment c)).
      rewrite (conclusions_of_no_updates RequiredApproval
                 (fst (_run_tests c))) by (now apply run_tests_updates).
      rewrite (conclusions_of_no_updates RequiredApproval
                 (fst (_update_pr_environment c)))
        by (now apply update_pr_environment_updates).
      rewrite (conclusions_of_no_updates RequiredApproval
                 (fst (prod_plan_gate c _)))
        by (now apply prod_plan_gate_updates).
      rewrite (conclusions_of_no_updates RequiredApproval
                 (fst (deployment_decision c _ _ _ _)))
        by (now apply deployment_decision_updates).
      cbn [List.length]. lia.
    + rewrite update_pr_environment_conclusions.
      rewrite !conclusions_of_no_updates;
        [ cbn; lia
        | now apply deployment_decision_updates
        | now apply prod_plan_gate_updates
        | now apply required_approval_gate_updates
        | now apply run_tests_updates ].
    + rewrite prod_plan_gate_conclusions.
      rewrite !conclusions_of_no_updates;
        [ cbn; lia
        | now apply deployment_decision_updates
        | now apply update_pr_environment_updates
        | now apply required_approval_gate_updates
        | now apply run_tests_updates ].
    + pose proof (deployment_decision_conclusions (is_auto_deploying_prod c)
                    (run_has_required_approval c)
                    (run_pr_environment_updated c)
                    (run_prod_plan_generated c) (Hf eq_refl)).
      rewrite (conclusions_of_no_updates ProdDeployment
                 (fst (_run_tests c))) by (now apply run_tests_updates).
      rewrite (conclusions_of_no_updates ProdDeployment
                 (fst (required_approval_gate c _)))
        by (now apply required_approval_gate_updates).
      rewrite (conclusions_of_no_updates ProdDeployment
                 (fst (_update_pr_environment c)))
        by (now apply update_pr_environment_updates).
      rewrite (conclusions_of_no_updates ProdDeployment
                 (fst (prod_plan_gate c _)))
        by (now apply prod_plan_gate_updates).
      cbn [List.length]. lia.
  - rewrite (run_all_tests_failed c Hg Ht). cbn [fst].
    rewrite !conclusions_app, !List.length_app.
    rewrite (conclusions_of_no_updates _ _ (gating_log_updates c g)).
    rewrite queue_checks_conclusions. cbn [List.length].
    pose proof (tests_failed_conclusions g (is_auto_deploying_prod c)).
    destruct g.
    + rewrite run_tests_conclusions, tests_failed_conclusions_tests.
      rewrite conclusions_of_no_updates
        by (now apply required_approval_gate_updates).
      cbn; lia.
    + pose proof (required_approval_gate_conclusions (granted_by_comment c)).
      rewrite tests_failed_conclusions_approval.
      rewrite (conclusions_of_no_updates RequiredApproval
                 (fst (_run_tests c))) by (now apply run_tests_updates).
      cbn [List.length]. lia.
    + rewrite (conclusions_of_no_updates _ (fst (_run_tests c)))
        by (now apply run_tests_updates).
      rewrite (conclusions_of_no_updates _
                 (fst (required_approval_gate c _)))
        by (now apply required_approval_gate_updates).
      cbn [List.length]. lia.
    + rewrite (conclusions_of_no_updates _ (fst (_run_tests c)))
        by (now apply run_tests_updates).
      rewrite (conclusions_of_no_updates _
                 (fst (required_approval_gate c _)))
        by (now apply required_approval_gate_updates).
      cbn [List.length]. lia.
    + rewrite (conclusions_of_no_updates _ (fst (_run_tests c)))
        by (now apply run_tests_updates).
      rewrite (conclusions_of_no_updates _
                 (fst (required_approval_gate c _)))
        by (now apply required_approval_gate_updates).
      cbn [List.length]. lia.
Qed.

End Completions.

(** C6, as the code has it.  When the deployment succeeds and both
    follow-ups return, the SUCCESS of the deployment check is its only
    conclusion and the runner returns [true].  In every run of
    [_run_all], each of the other four checks is completed at most once,
    and so is the deployment check provided both follow-ups return. *)
Theorem checks_complete_once (c : GithubController) :
  (deploy_to_prod c = inr tt ->
   follow_ups_return c ->
   conclusions c ProdDeployment (log_of (_deploy_production c))
   = [Some SUCCESS]
   /\ outcome (_deploy_production c) = inr true)
  /\ (forall g,
         g <> ProdDeployment ->
         List.length (conclusions c g (log_of (_run_all c))) <= 1)
  /\ (follow_ups_return c ->
      List.length (conclusions c ProdDeployment (log_of (_run_all c))) <= 1).
Proof.
  split; [ | split ].
  - intros Hd [Hm Ht]. unfold log_of, outcome, _deploy_production.
    rewrite Hd, Hm, Ht. split; reflexivity.
  - intros g Hg. apply run_all_completions. intros He. contradiction.
  - intros Hf. apply run_all_completions. intros _. exact Hf.
Qed.

Lemma checks_complete_once_witness :
  deploy_to_prod happy_path = inr tt
  /\ follow_ups_return happy_path
  /\ conclusions happy_path ProdDeployment
       (log_of (_deploy_production happy_path)) = [Some SUCCESS]
  /\ List.length
       (conclusions happy_path ProdDeployment (log_of (_run_all happy_path)))
     <= 1.
Proof.
  pose proof (checks_complete_once happy_path) as (H1 & _ & H3).
  assert (Hf : follow_ups_return happy_path) by (split; reflexivity).
  split; [ reflexivity | split; [ exact Hf | ] ].
  split; [ exact (proj1 (H1 eq_refl Hf)) | exact (H3 Hf) ].
Defined.

(** ** The shape of a log, stage by stage *)

Lemma statuses_of_app g l1 l2 :
  statuses_of g (l1 ++ l2) = statuses_of g l1 ++ statuses_of g l2.
Proof. unfold statuses_of. now rewrite updates_of_app, map_app. Qed.

Lemma operations_of_app l1 l2 :
  operations_of (l1 ++ l2) = operations_of l1 ++ operations_of l2.
Proof. unfold operations_of. apply flat_map_app. Qed.

Lemma invocations_count op l :
  invocations op l
  = List.length (filter (Operation_beq op) (operations_of l)).
Proof.
  unfold invocations, operations_of.
  induction l as [ | [g s a | op'] l IH]; cbn; [ reflexivity | exact IH | ].
  destruct (Operation_beq op op'); cbn; now rewrite IH.
Qed.

Lemma subsequence_count op xs ys :
  subsequence xs ys = true ->
  List.length (filter (Operation_beq op) xs)
  <= List.length (filter (Operation_beq op) ys).
Proof.
  revert xs. induction ys as [ | y ys IH]; intros [ | x xs] H; cbn in *;
    try lia; try discriminate.
  destruct (Operation_beq x y) eqn:E.
  - apply internal_Operation_dec_bl in E. subst y.
    specialize (IH xs H). destruct (Operation_beq op x); cbn; lia.
  - specialize (IH (x :: xs) H). cbn in IH.
    destruct (Operation_beq op y); cbn; lia.
Qed.

Section StageShapes.

Variable c : GithubController.

Lemma gating_log_operations :
  operations_of (gating_log c) =
    if is_comment_added c then [Op_get_command_from_comment] else [].
Proof. unfold gating_log. now destruct (is_comment_added c). Qed.

Lemma queue_checks_operations auto :
  operations_of (fst (queue_checks c auto)) = [].
Proof. now destruct auto. Qed.

Lemma run_tests_operations :
  operations_of (fst (_run_tests c)) = [Op_run_tests].
Proof. unfold _run_tests. now destruct (run_tests c) as [e | [r o]]. Qed.

Lemma required_approval_gate_operations pre :
  operations_of (fst (required_approval_gate c pre)) =
    if do_required_approval_check c then
      if pre then [] else [Op_has_required_approval]
    else [].
Proof.
  rewrite required_approval_gate_log.
  now destruct (do_required_approval_check c), pre.
Qed.

Lemma tests_failed_operations auto :
  operations_of (fst (tests_failed c auto)) = [].
Proof. now destruct auto. Qed.

Lemma update_pr_environment_operations :
  operations_of (fst (_update_pr_environment c)) = [Op_update_pr_environment].
Proof.
  unfold _update_pr_environment.
  now destruct (update_pr_environment c) as [e | []].
Qed.

Lemma prod_plan_gate_operations env :
  operations_of (fst (prod_plan_gate c env)) =
    if env then [Op_get_plan_summary] else [].
Proof.
  unfold prod_plan_gate, _gen_prod_plan. destruct env; [ | reflexivity ].
  now destruct (get_plan_summary c) as [e | s].
Qed.

Lemma deploy_production_invokes :
  operations_of (fst (_deploy_production c)) = deploy_production_operations c.
Proof.
  unfold _deploy_production, deploy_production_operations.
  destruct (deploy_to_prod c) as [[] | []]; cbn; try reflexivity.
  destruct (try_merge_pr c) as [[] | []]; cbn; try reflexivity.
  destruct (try_invalidate_pr_environment c) as [[] | []]; reflexivity.
Qed.

Lemma deployment_decision_operations auto appr env plan :
  operations_of (fst (deployment_decision c auto appr env plan)) =
    if appr && plan then deploy_production_operations c else [].
Proof.
  unfold deployment_decision. destruct (appr && plan).
  - apply deploy_production_invokes.
  - now destruct auto.
Qed.

Lemma run_tests_statuses g :
  statuses_of g (fst (_run_tests c)) =
    match g with Tests => [IN_PROGRESS; COMPLETED] | _ => [] end.
Proof.
  unfold _run_tests. now destruct (run_tests c) as [e | [r o]], g.
Qed.

Lemma required_approval_gate_statuses g pre :
  statuses_of g (fst (required_approval_gate c pre)) =
    match g with
    | RequiredApproval =>
        if do_required_approval_check c then
          if pre then [COMPLETED] else [QUEUED; IN_PROGRESS; COMPLETED]
        else []
    | _ => []
    end.
Proof.
  rewrite required_approval_gate_log.
  now destruct (do_required_approval_check c), pre, g.
Qed.

Lemma tests_failed_statuses g auto :
  statuses_of g (fst (tests_failed c auto)) =
    match g with
    | PREnvironment | ProdPlanPreview => [COMPLETED]
    | ProdDeployment => if auto then [COMPLETED] else []
    | _ => []
    end.
Proof. now destruct auto, g. Qed.

Lemma queue_checks_statuses g auto :
  statuses_of g (fst (queue_checks c auto)) =
    match g with
    | RequiredApproval => []
    | ProdDeployment => if auto then [QUEUED] else []
    | _ => [QUEUED]
    end.
Proof. now destruct auto, g. Qed.

Lemma update_pr_environment_statuses g :
  statuses_of g (fst (_update_pr_environment c)) =
    match g with PREnvironment => [IN_PROGRESS; COMPLETED] | _ => [] end.
Proof.
  unfold _update_pr_environment.
  now destruct (update_pr_environment c) as [e | []], g.
Qed.

Lemma prod_plan_gate_statuses g env :
  statuses_of g (fst (prod_plan_gate c env)) =
    match g with
    | ProdPlanPreview => if env then [IN_PROGRESS; COMPLETED] else [COMPLETED]
    | _ => []
    end.
Proof.
  unfold prod_plan_gate, _gen_prod_plan. destruct env.
  - now destruct (get_plan_summary c) as [e | s], g.
  - now destruct g.
Qed.

Lemma deploy_production_statuses g :
  statuses_of g (fst (_deploy_production c)) =
    match g with
    | ProdDeployment =>
        if follow_up_raises c then [IN_PROGRESS; COMPLETED; COMPLETED]
        else [IN_PROGRESS; COMPLETED]
    | _ => []
    end.
Proof.
  unfold _deploy_production, follow_up_raises.
  destruct (deploy_to_prod c) as [[] | []]; cbn;
    try (now destruct g).
  destruct (try_merge_pr c) as [[] | []]; cbn; try (now destruct g).
  destruct (try_invalidate_pr_environment c) as [[] | []]; now destruct g.
Qed.

Lemma deployment_decision_statuses g auto appr env plan :
  statuses_of g (fst (deployment_decision c auto appr env plan)) =
    match g with
    | ProdDeployment =>
        if appr && plan then
          if follow_up_raises c then [IN_PROGRESS; COMPLETED; COMPLETED]
          else [IN_PROGRESS; COMPLETED]
        else if auto then [COMPLETED] else []
    | _ => []
    end.
Proof.
  unfold deployment_decision. destruct (appr && plan).
  - apply deploy_production_statuses.
  - now destruct auto, g.
Qed.

(** A run that trigger gating stops logs at most the call that
    classifies the comment. *)
Lemma run_all_gated_out_log :
  passes_trigger_gating c = false ->
  log_of (_run_all c) = []
  \/ log_of (_run_all c) = [Invoke Op_get_command_from_comment].
Proof.
  unfold passes_trigger_gating, granted_by_comment, _run_all, log_of.
  destruct (is_comment_added c); cbn; [ | discriminate ].
  destruct (deploy_command_enabled c); cbn; [ | now left ].
  destruct (get_command_from_comment c); cbn; try discriminate;
    intros _; now right.
Qed.

(** The operations of a whole run, in the order they are invoked. *)
Lemma run_all_operations :
  passes_trigger_gating c = true ->
  operations_of (log_of (_run_all c)) =
    (if is_comment_added c then [Op_get_command_from_comment] else [])
    ++ [Op_run_tests]
    ++ (if do_required_approval_check c then
          if granted_by_comment c then [] else [Op_has_required_approval]
        else [])
    ++ (if run_tests_passed c then
          [Op_update_pr_environment]
          ++ (if run_pr_environment_updated c then [Op_get_plan_summary]
              else [])
          ++ (if run_has_required_approval c && run_prod_plan_generated c
              then deploy_production_operations c else [])
        else []).
Proof.
  intros Hg. unfold log_of. destruct (run_tests_passed c) eqn:Ht.
  - rewrite (run_all_passed c Hg Ht). cbn [fst].
    rewrite !operations_of_app, gating_log_operations,
      queue_checks_operations, run_tests_operations,
      required_approval_gate_operations, update_pr_environment_operations,
      prod_plan_gate_operations, deployment_decision_operations.
    reflexivity.
  - rewrite (run_all_tests_failed c Hg Ht). cbn [fst].
    rewrite !operations_of_app, gating_log_operations,
      queue_checks_operations, run_tests_operations,
      required_approval_gate_operations, tests_failed_operations.
    reflexivity.
Qed.

(** The statuses a check goes through in a whole run. *)
Lemma run_all_statuses g :
  passes_trigger_gating c = true ->
  statuses_of g (log_of (_run_all c)) =
    statuses_of g (fst (queue_checks c (is_auto_deploying_prod c)))
    ++ statuses_of g (fst (_run_tests c))
    ++ statuses_of g (fst (required_approval_gate c (granted_by_comment c)))
    ++ (if run_tests_passed c then
          statuses_of g (fst (_update_pr_environment c))
          ++ statuses_of g
               (fst (prod_plan_gate c (run_pr_environment_updated c)))
          ++ statuses_of g
               (fst (deployment_decision c (is_auto_deploying_prod c)
                       (run_has_required_approval c)
                       (run_pr_environment_updated c)
                       (run_prod_plan_generated c)))
        else statuses_of g (fst (tests_failed c (is_auto_deploying_prod c)))).
Proof.
  intros Hg. unfold log_of. destruct (run_tests_passed c) eqn:Ht.
  - rewrite (run_all_passed c Hg Ht). cbn [fst].
    rewrite !statuses_of_app. unfold statuses_of at 1.
    now rewrite gating_log_updates.
  - rewrite (run_all_tests_failed c Hg Ht). cbn [fst].
    rewrite !statuses_of_app. unfold statuses_of at 1.
    now rewrite gating_log_updates.
Qed.

End StageShapes.

(** ** Properties of every run *)

Ltac case_flags :=
  repeat match goal with
         | |- context [if ?b then _ else _] => destruct b
         end.

(** X1.  Whatever the controller answers, [_run_all] invokes its
    operations in one fixed order: classify the comment, run the tests,
    ask for approval, update the PR environment, summarise the plan,
    deploy, merge, tear down; some may be left out, none comes twice. *)
Theorem operations_in_fixed_order (c : GithubController) :
  subsequence (operations_of (log_of (_run_all c))) order_of_operations = true
  /\ forall op, invocations op (log_of (_run_all c)) <= 1.
Proof.
  assert (H : subsequence (operations_of (log_of (_run_all c)))
                order_of_operations = true).
  { destruct (passes_trigger_gating c) eqn:Hg.
    - rewrite (run_all_operations c Hg). unfold deploy_production_operations.
      destruct (deploy_to_prod c), (try_merge_pr c); case_flags; reflexivity.
    - destruct (run_all_gated_out_log c Hg) as [-> | ->]; reflexivity. }
  split; [ exact H | ].
  intros op. rewrite invocations_count.
  apply (subsequence_count op) in H.
  destruct op; cbn in H; exact H.
Qed.

(** X4.  In every run and for every check, the statuses reported never
    go back (QUEUED, then IN_PROGRESS, then COMPLETED), and a check that
    was reported at all is COMPLETED when the run ends: none is left
    queued or in progress. *)
Theorem checks_settle (c : GithubController) (g : Check) :
  never_regresses (statuses_of g (log_of (_run_all c))) = true
  /\ last (statuses_of g (log_of (_run_all c))) COMPLETED = COMPLETED.
Proof.
  destruct (passes_trigger_gating c) eqn:Hg.
  - rewrite (run_all_statuses c g Hg).
    rewrite queue_checks_statuses, run_tests_statuses,
      required_approval_gate_statuses, update_pr_environment_statuses,
      prod_plan_gate_statuses, deployment_decision_statuses,
      tests_failed_statuses.
    destruct g; case_flags; split; reflexivity.
  - unfold statuses_of. rewrite (run_all_gated_out c g Hg). split; reflexivity.
Qed.

Section RunFacts.

Variable c : GithubController.

Lemma plan_generated_needs_environment :
  run_prod_plan_generated c = true -> run_pr_environment_updated c = true.
Proof.
  unfold run_prod_plan_generated.
  destruct (run_pr_environment_updated c); [ reflexivity | ].
  cbn. discriminate.
Qed.

Lemma approval_needs_auto_deploy :
  passes_trigger_gating c = true ->
  run_has_required_approval c = true ->
  is_auto_deploying_prod c = true.
Proof.
  unfold run_has_required_approval. rewrite required_approval_gate_value.
  unfold is_auto_deploying_prod, granted_by_comment.
  destruct (do_required_approval_check c), (deploy_command_enabled c),
    (is_comment_added c); cbn; intros; congruence.
Qed.

Lemma deploy_production_succeeds_iff :
  returned (_deploy_production c) = true
  <-> (deploy_to_prod c = inr tt
       /\ try_merge_pr c = inr tt
       /\ try_invalidate_pr_environment c = inr tt).
Proof.
  unfold returned, _deploy_production. split.
  - destruct (deploy_to_prod c) as [[] | []]; cbn; try discriminate.
    destruct (try_merge_pr c) as [[] | []]; cbn; try discriminate.
    destruct (try_invalidate_pr_environment c) as [[] | []]; cbn;
      try discriminate.
    intros _. repeat split.
  - intros (-> & -> & ->). reflexivity.
Qed.

Lemma run_all_outcome :
  passes_trigger_gating c = true ->
  outcome (_run_all c) =
    if run_tests_passed c then
      outcome (verdict (run_has_required_approval c)
                 (run_pr_environment_updated c) (run_prod_plan_generated c)
                 (run_deployed_to_prod c))
    else inl (CICDBotError tests_failed_message).
Proof.
  intros Hg. unfold outcome. destruct (run_tests_passed c) eqn:Ht.
  - now rewrite (run_all_passed c Hg Ht).
  - now rewrite (run_all_tests_failed c Hg Ht).
Qed.

Lemma run_all_gated_out_outcome :
  passes_trigger_gating c = false ->
  outcome (_run_all c) = inr tt
  \/ exists text,
      get_command_from_comment c = UNSUPPORTED text
      /\ outcome (_run_all c)
         = inl (CICDBotError (String.append "Unsupported command: " text)).
Proof.
  unfold passes_trigger_gating, granted_by_comment, _run_all, outcome.
  destruct (is_comment_added c); cbn; [ | discriminate ].
  destruct (deploy_command_enabled c); cbn; [ | now left ].
  destruct (get_command_from_comment c) as [ | | text]; cbn;
    try discriminate; intros _; [ now left | right ].
  exists text. split; reflexivity.
Qed.

Lemma run_all_updates g :
  passes_trigger_gating c = true ->
  updates_of g (log_of (_run_all c)) =
    updates_of g (fst (queue_checks c (is_auto_deploying_prod c)))
    ++ updates_of g (fst (_run_tests c))
    ++ updates_of g (fst (required_approval_gate c (granted_by_comment c)))
    ++ (if run_tests_passed c then
          updates_of g (fst (_update_pr_environment c))
          ++ updates_of g
               (fst (prod_plan_gate c (run_pr_environment_updated c)))
          ++ updates_of g
               (fst (deployment_decision c (is_auto_deploying_prod c)
                       (run_has_required_approval c)
                       (run_pr_environment_updated c)
                       (run_prod_plan_generated c)))
        else updates_of g (fst (tests_failed c (is_auto_deploying_prod c)))).
Proof.
  intros Hg. unfold log_of. destruct (run_tests_passed c) eqn:Ht.
  - rewrite (run_all_passed c Hg Ht). cbn [fst].
    now rewrite !updates_of_app, gating_log_updates.
  - rewrite (run_all_tests_failed c Hg Ht). cbn [fst].
    now rewrite !updates_of_app, gating_log_updates.
Qed.

End RunFacts.

(** ** Trigger gating *)

(** C8.  In a run triggered by a comment: with commands disabled the run
    returns at once, having called nothing; a comment that is not a
    command makes it return after classifying the comment, with no check
    touched; an unsupported command makes it raise the unsupported
    command error, with no check touched; a deploy command sets
    [has_required_approval] and the run goes on: the four checks are
    queued, the tests run, the approval check, if enabled, is completed
    SKIPPED without asking the controller, and the remaining gates run
    with approval held, up to the verdict. *)
Theorem run_all_comment_gating (c : GithubController) :
  is_comment_added c = true ->
  (deploy_command_enabled c = false ->
   _run_all c = ([], inr tt)
   /\ touches_a_check (log_of (_run_all c)) = false)
  /\ (deploy_command_enabled c = true ->
      get_command_from_comment c = INVALID ->
      _run_all c = ([Invoke Op_get_command_from_comment], inr tt)
      /\ touches_a_check (log_of (_run_all c)) = false)
  /\ (deploy_command_enabled c = true ->
      forall text,
        get_command_from_comment c = UNSUPPORTED text ->
        _run_all c =
          ([Invoke Op_get_command_from_comment],
           inl (CICDBotError (String.append "Unsupported command: " text)))
        /\ touches_a_check (log_of (_run_all c)) = false)
  /\ (deploy_command_enabled c = true ->
      get_command_from_comment c = DEPLOY_PROD ->
      run_has_required_approval c = true
      /\ invocations Op_has_required_approval (log_of (_run_all c)) = 0
      /\ log_of (_run_all c) =
           [Invoke Op_get_command_from_comment;
            Update PREnvironment QUEUED no_args;
            Update ProdPlanPreview QUEUED no_args;
            Update Tests QUEUED no_args;
            Update ProdDeployment QUEUED no_args]
           ++ log_of (_run_tests c)
           ++ (if do_required_approval_check c then
                 [Update RequiredApproval COMPLETED (with_conclusion SKIPPED)]
               else [])
           ++ (if returned (_run_tests c) then
                 log_of (_update_pr_environment c)
                 ++ (if returned (_update_pr_environment c) then
                       log_of (_gen_prod_plan c)
                     else
                       [Update ProdPlanPreview COMPLETED
                          (with_conclusion SKIPPED)])
                 ++ (if returned (_update_pr_environment c)
                        && returned (_gen_prod_plan c)
                     then log_of (_deploy_production c)
                     else
                       [Update ProdDeployment COMPLETED
                          (skipped_because
                             (if returned (_update_pr_environment c)
                              then reason_plan_not_generated
                              else reason_env_not_updated))])
               else
                 [Update PREnvironment COMPLETED
                    {| conclusion := None; exception := Some TestFailure;
                       result := None; output := None; summary := None;
                       skip_reason := None |};
                  Update ProdPlanPreview COMPLETED
                    {| conclusion := Some SKIPPED; exception := None;
                       result := None; output := None;
                       summary :=
                         Some "Unit Test(s) Failed so skipping creating prod plan";
                       skip_reason := None |};
                  Update ProdDeployment COMPLETED
                    (skipped_because
                       "Unit Test(s) Failed so skipping deploying to production")])
      /\ outcome (_run_all c) =
           if returned (_run_tests c) then
             if returned (_update_pr_environment c)
                && returned (_gen_prod_plan c)
                && returned (_deploy_production c)
             then inr tt
             else inl run_all_failed
           else
             inl (CICDBotError
                    "Failed to run tests. See check status for more information.")).
Proof.
  intros Hc.
  split; [ | split; [ | split ] ].
  - intros He. unfold _run_all. now rewrite Hc, He.
  - intros He Hi. unfold _run_all. now rewrite Hc, He, Hi.
  - intros He text Hu. unfold _run_all. now rewrite Hc, He, Hu.
  - intros He Hd.
    assert (Hp : granted_by_comment c = true).
    { unfold granted_by_comment. now rewrite Hc, He, Hd. }
    assert (Hg : passes_trigger_gating c = true).
    { unfold passes_trigger_gating. now rewrite Hp, orb_true_r. }
    assert (Hauto : is_auto_deploying_prod c = true).
    { unfold is_auto_deploying_prod. now rewrite He. }
    assert (Ha : run_has_required_approval c = true).
    { unfold run_has_required_approval.
      rewrite required_approval_gate_value, Hp.
      now destruct (do_required_approval_check c). }
    split; [ exact Ha | split; [ | split ] ].
    + rewrite (proj2 (run_all_approval_log c Hg)).
      rewrite required_approval_gate_log, Hp.
      now destruct (do_required_approval_check c).
    + unfold log_of. destruct (returned (_run_tests c)) eqn:Ht.
      * rewrite (run_all_passed c Hg Ht). cbn [fst].
        rewrite Ha, Hauto, Hp, required_approval_gate_log.
        unfold gating_log, run_prod_plan_generated,
          run_pr_environment_updated, prod_plan_gate, deployment_decision,
          choose_skip_reason.
        rewrite Hc.
        destruct (returned (_update_pr_environment c));
          [ destruct (returned (_gen_prod_plan c)) | ]; reflexivity.
      * rewrite (run_all_tests_failed c Hg Ht). cbn [fst].
        rewrite Hauto, Hp, required_approval_gate_log, tests_failed_log.
        unfold gating_log. rewrite Hc. reflexivity.
    + rewrite (run_all_outcome c Hg). unfold run_tests_passed.
      destruct (returned (_run_tests c)); [ | reflexivity ].
      rewrite Ha. unfold outcome, verdict, run_deployed_to_prod.
      rewrite Ha, Hauto.
      unfold run_prod_plan_generated, run_pr_environment_updated,
        prod_plan_gate, deployment_decision.
      destruct (returned (_update_pr_environment c));
        [ destruct (returned (_gen_prod_plan c)) | ]; cbn [andb];
        try reflexivity.
      destruct (returned (_deploy_production c)); reflexivity.
Qed.

Lemma run_all_comment_gating_witness :
  is_comment_added unsupported_comment = true
  /\ deploy_command_enabled unsupported_comment = true
  /\ _run_all unsupported_comment =
       ([Invoke Op_get_command_from_comment],
        inl (CICDBotError "Unsupported command: /rollback"))
  /\ touches_a_check (log_of (_run_all unsupported_comment)) = false.
Proof.
  split; [ reflexivity | split; [ reflexivity | ] ].
  exact (proj1 (proj2 (proj2
           (run_all_comment_gating unsupported_comment eq_refl)))
           eq_refl "/rollback" eq_refl).
Defined.

(** X2.  [_run_all] calls [deploy_to_prod] only in a run that got past
    trigger gating, whose tests passed, in which approval is held and
    the production plan was generated, and then exactly once; in such a
    run the PR environment was updated and the deployment check had
    been queued. *)
Theorem deploys_only_when_allowed (c : GithubController) :
  (invocations Op_deploy_to_prod (log_of (_run_all c)) = 1
   <-> (passes_trigger_gating c = true
        /\ run_tests_passed c = true
        /\ run_has_required_approval c = true
        /\ run_prod_plan_generated c = true))
  /\ (invocations Op_deploy_to_prod (log_of (_run_all c)) = 1 ->
      run_pr_environment_updated c = true
      /\ hd_error (statuses_of ProdDeployment (log_of (_run_all c)))
         = Some QUEUED).
Proof.
  assert (H : invocations Op_deploy_to_prod (log_of (_run_all c)) = 1
              <-> (passes_trigger_gating c = true
                   /\ run_tests_passed c = true
                   /\ run_has_required_approval c = true
                   /\ run_prod_plan_generated c = true)).
  { rewrite invocations_count.
    destruct (passes_trigger_gating c) eqn:Hg.
    - rewrite (run_all_operations c Hg). unfold deploy_production_operations.
      destruct (run_tests_passed c), (run_has_required_approval c),
        (run_prod_plan_generated c), (deploy_to_prod c), (try_merge_pr c);
        cbn [andb]; case_flags; cbn;
        (split; [ intros H0; try discriminate H0; repeat split; reflexivity
                | intros (_ & H1 & H2 & H3); congruence ]).
    - destruct (run_all_gated_out_log c Hg) as [-> | ->]; cbn;
        (split; [ intros H0; discriminate H0
                | intros (H0 & _); discriminate H0 ]). }
  split; [ exact H | ].
  intros Hi. apply H in Hi. destruct Hi as (Hg & Ht & Ha & Hp).
  split; [ now apply plan_generated_needs_environment | ].
  rewrite (run_all_statuses c ProdDeployment Hg), queue_checks_statuses.
  now rewrite (approval_needs_auto_deploy c Hg Ha).
Qed.

(** X3.  [_run_all] asks for the plan summary only after the PR
    environment was updated.  When the tests passed and the environment
    was not updated, the plan preview is completed SKIPPED without being
    run, no plan counts as generated, nothing is deployed and the run
    raises the run-all bot error. *)
Theorem plan_needs_updated_environment (c : GithubController) :
  (invocations Op_get_plan_summary (log_of (_run_all c)) = 1
   <-> (passes_trigger_gating c = true
        /\ run_tests_passed c = true
        /\ run_pr_environment_updated c = true))
  /\ (passes_trigger_gating c = true ->
      run_tests_passed c = true ->
      run_pr_environment_updated c = false ->
      statuses_of ProdPlanPreview (log_of (_run_all c)) = [QUEUED; COMPLETED]
      /\ conclusions c ProdPlanPreview (log_of (_run_all c)) = [Some SKIPPED]
      /\ run_prod_plan_generated c = false
      /\ invocations Op_deploy_to_prod (log_of (_run_all c)) = 0
      /\ outcome (_run_all c) = inl run_all_failed).
Proof.
  split.
  - rewrite invocations_count.
    destruct (passes_trigger_gating c) eqn:Hg.
    + rewrite (run_all_operations c Hg). unfold deploy_production_operations.
      destruct (run_tests_passed c), (run_pr_environment_updated c),
        (deploy_to_prod c), (try_merge_pr c);
        cbn [andb]; case_flags; cbn;
        (split; [ intros H0; try discriminate H0; repeat split; reflexivity
                | intros (_ & H1 & H2); congruence ]).
    + destruct (run_all_gated_out_log c Hg) as [-> | ->]; cbn;
        (split; [ intros H0; discriminate H0
                | intros (H0 & _); discriminate H0 ]).
  - intros Hg Ht He.
    assert (Hp : run_prod_plan_generated c = false).
    { unfold run_prod_plan_generated. now rewrite He. }
    split; [ | split; [ | split; [ exact Hp | split ] ] ].
    + rewrite (run_all_statuses c ProdPlanPreview Hg), Ht, He.
      rewrite queue_checks_statuses, run_tests_statuses,
        required_approval_gate_statuses, update_pr_environment_statuses,
        prod_plan_gate_statuses, deployment_decision_statuses.
      reflexivity.
    + unfold conclusions.
      rewrite (run_all_updates c ProdPlanPreview Hg), Ht, He.
      rewrite queue_checks_updates, run_tests_updates,
        required_approval_gate_updates, update_pr_environment_updates,
        deployment_decision_updates by discriminate.
      reflexivity.
    + rewrite invocations_count, (run_all_operations c Hg), Ht, He, Hp.
      rewrite andb_false_r. now case_flags.
    + rewrite (run_all_outcome c Hg), Ht, He. reflexivity.
Qed.

Lemma plan_needs_updated_environment_witness :
  passes_trigger_gating deploy_command_env_fails = true
  /\ run_tests_passed deploy_command_env_fails = true
  /\ run_pr_environment_updated deploy_command_env_fails = false
  /\ conclusions deploy_command_env_fails ProdPlanPreview
       (log_of (_run_all deploy_command_env_fails)) = [Some SKIPPED]
  /\ outcome (_run_all deploy_command_env_fails) = inl run_all_failed.
Proof.
  pose proof (proj2 (plan_needs_updated_environment deploy_command_env_fails)
                eq_refl eq_refl eq_refl) as (_ & Hc & _ & _ & Ho).
  split; [ reflexivity | split; [ reflexivity | split; [ reflexivity | ] ] ].
  split; [ exact Hc | exact Ho ].
Defined.

(** X5.  With the required-approval check disabled, no run touches the
    approval check or asks the controller whether approval was given;
    approval is then held exactly when a deploy command granted it. *)
Theorem approval_check_disabled (c : GithubController) :
  do_required_approval_check c = false ->
  updates_of RequiredApproval (log_of (_run_all c)) = []
  /\ invocations Op_has_required_approval (log_of (_run_all c)) = 0
  /\ (passes_trigger_gating c = true ->
      run_has_required_approval c = granted_by_comment c).
Proof.
  intros Hd. destruct (passes_trigger_gating c) eqn:Hg.
  - destruct (run_all_approval_log c Hg) as [Hu Hi]. rewrite Hu, Hi.
    unfold run_has_required_approval.
    rewrite required_approval_gate_value, required_approval_gate_log, Hd.
    repeat split.
  - split; [ now apply run_all_gated_out | split; [ | discriminate ] ].
    destruct (run_all_gated_out_log c Hg) as [-> | ->]; reflexivity.
Qed.

Lemma approval_check_disabled_witness :
  do_required_approval_check commands_only = false
  /\ invocations Op_has_required_approval (log_of (_run_all commands_only))
     = 0.
Proof.
  split; [ reflexivity | ].
  exact (proj1 (proj2 (approval_check_disabled commands_only eq_refl))).
Defined.

(** X6.  With neither the deploy command nor the required-approval
    check enabled, a run triggered by a comment does nothing; any other
    run never reports on the deployment check and never deploys, merges
    or tears down, and, once the tests passed, it returns normally
    exactly when the PR environment was updated and the plan was
    generated. *)
Theorem without_auto_deploy (c : GithubController) :
  is_auto_deploying_prod c = false ->
  (is_comment_added c = true -> _run_all c = ([], inr tt))
  /\ updates_of ProdDeployment (log_of (_run_all c)) = []
  /\ invocations Op_deploy_to_prod (log_of (_run_all c)) = 0
  /\ invocations Op_try_merge_pr (log_of (_run_all c)) = 0
  /\ invocations Op_try_invalidate_pr_environment (log_of (_run_all c)) = 0
  /\ (is_comment_added c = false ->
      run_tests_passed c = true ->
      (outcome (_run_all c) = inr tt
       <-> (run_pr_environment_updated c = true
            /\ run_prod_plan_generated c = true))).
Proof.
  intros Ha. pose proof Ha as Ha'. unfold is_auto_deploying_prod in Ha'.
  apply orb_false_elim in Ha'. destruct Ha' as [He Hd].
  destruct (is_comment_added c) eqn:Hc.
  - assert (Hr : _run_all c = ([], inr tt)).
    { unfold _run_all. now rewrite Hc, He. }
    rewrite Hr. repeat split; discriminate.
  - assert (Hg : passes_trigger_gating c = true).
    { unfold passes_trigger_gating. now rewrite Hc. }
    assert (Hp : granted_by_comment c = false).
    { unfold granted_by_comment. now rewrite Hc. }
    assert (Hr : run_has_required_approval c = false).
    { unfold run_has_required_approval.
      now rewrite required_approval_gate_value, Hd, Hp. }
    split; [ discriminate | ].
    split; [ | split; [ | split; [ | split ] ] ].
    + rewrite (run_all_updates c ProdDeployment Hg), Ha, Hr.
      rewrite queue_checks_updates, run_tests_updates,
        required_approval_gate_updates, update_pr_environment_updates,
        prod_plan_gate_updates by discriminate.
      unfold deployment_decision, tests_failed. cbn [andb].
      now destruct (run_tests_passed c).
    + rewrite invocations_count, (run_all_operations c Hg), Hc, Hd, Hr.
      cbn [andb]. now case_flags.
    + rewrite invocations_count, (run_all_operations c Hg), Hc, Hd, Hr.
      cbn [andb]. now case_flags.
    + rewrite invocations_count, (run_all_operations c Hg), Hc, Hd, Hr.
      cbn [andb]. now case_flags.
    + intros _ Ht. rewrite (run_all_outcome c Hg), Ht, Hr.
      unfold outcome, verdict.
      destruct (run_pr_environment_updated c), (run_prod_plan_generated c);
        cbn; split; intros; try discriminate; try tauto; intuition congruence.
Qed.

Lemma without_auto_deploy_witness :
  is_auto_deploying_prod no_deployment = false
  /\ updates_of ProdDeployment (log_of (_run_all no_deployment)) = []
  /\ invocations Op_deploy_to_prod (log_of (_run_all no_deployment)) = 0.
Proof.
  pose proof (without_auto_deploy no_deployment eq_refl)
    as (_ & Hu & Hi & _).
  split; [ reflexivity | split; [ exact Hu | exact Hi ] ].
Defined.

(** X7.  When a run that got past trigger gating holds approval and
    returns normally, production was deployed: [deploy_to_prod] and both
    follow-ups were each invoked once and returned, and the deployment
    check went QUEUED, IN_PROGRESS, COMPLETED with the single conclusion
    SUCCESS. *)
Theorem success_with_approval_means_deployed (c : GithubController) :
  passes_trigger_gating c = true ->
  run_has_required_approval c = true ->
  outcome (_run_all c) = inr tt ->
  (deploy_to_prod c = inr tt
   /\ try_merge_pr c = inr tt
   /\ try_invalidate_pr_environment c = inr tt)
  /\ invocations Op_deploy_to_prod (log_of (_run_all c)) = 1
  /\ invocations Op_try_merge_pr (log_of (_run_all c)) = 1
  /\ invocations Op_try_invalidate_pr_environment (log_of (_run_all c)) = 1
  /\ statuses_of ProdDeployment (log_of (_run_all c))
     = [QUEUED; IN_PROGRESS; COMPLETED]
  /\ conclusions c ProdDeployment (log_of (_run_all c)) = [Some SUCCESS].
Proof.
  intros Hg Ha Ho. rewrite (run_all_outcome c Hg) in Ho.
  destruct (run_tests_passed c) eqn:Ht; [ | discriminate Ho ].
  unfold outcome, verdict in Ho. rewrite Ha in Ho.
  destruct (run_pr_environment_updated c) eqn:He; [ | discriminate Ho ].
  destruct (run_prod_plan_generated c) eqn:Hp; [ | discriminate Ho ].
  destruct (run_deployed_to_prod c) eqn:Hd; [ | discriminate Ho ].
  unfold run_deployed_to_prod in Hd. rewrite Ha, He, Hp in Hd.
  unfold deployment_decision in Hd. cbn [andb] in Hd.
  apply deploy_production_succeeds_iff in Hd.
  destruct Hd as (Hdep & Hmerge & Htear).
  pose proof (approval_needs_auto_deploy c Hg Ha) as Hauto.
  split; [ repeat split; assumption | ].
  split; [ | split; [ | split; [ | split ] ] ].
  - rewrite invocations_count, (run_all_operations c Hg), Ht, Ha, He, Hp.
    unfold deploy_production_operations. rewrite Hdep, Hmerge.
    cbn [andb]. now case_flags.
  - rewrite invocations_count, (run_all_operations c Hg), Ht, Ha, He, Hp.
    unfold deploy_production_operations. rewrite Hdep, Hmerge.
    cbn [andb]. now case_flags.
  - rewrite invocations_count, (run_all_operations c Hg), Ht, Ha, He, Hp.
    unfold deploy_production_operations. rewrite Hdep, Hmerge.
    cbn [andb]. now case_flags.
  - rewrite (run_all_statuses c ProdDeployment Hg), Ht, Ha, He, Hp, Hauto.
    rewrite queue_checks_statuses, run_tests_statuses,
      required_approval_gate_statuses, update_pr_environment_statuses,
      prod_plan_gate_statuses, deployment_decision_statuses.
    unfold follow_up_raises. now rewrite Hdep, Hmerge, Htear.
  - unfold conclusions.
    rewrite (run_all_updates c ProdDeployment Hg), Ht, Ha, He, Hp, Hauto.
    rewrite queue_checks_updates, run_tests_updates,
      required_approval_gate_updates, update_pr_environment_updates,
      prod_plan_gate_updates by discriminate.
    unfold deployment_decision, _deploy_production. cbn [andb].
    now rewrite Hdep, Hmerge, Htear.
Qed.

Lemma success_with_approval_means_deployed_witness :
  passes_trigger_gating deploy_command = true
  /\ run_has_required_approval deploy_command = true
  /\ outcome (_run_all deploy_command) = inr tt
  /\ conclusions deploy_command ProdDeployment
       (log_of (_run_all deploy_command)) = [Some SUCCESS].
Proof.
  pose proof (success_with_approval_means_deployed deploy_command
                eq_refl eq_refl eq_refl) as (_ & _ & _ & _ & _ & Hc).
  split; [ reflexivity | split; [ reflexivity | split; [ reflexivity | ] ] ].
  exact Hc.
Defined.

(** X8.  Missing approval does not fail a run.  When the tests passed,
    the PR environment was updated and the plan was generated, a run
    without approval returns normally although nothing was deployed; a
    queued deployment check is completed SKIPPED for want of approval. *)
Theorem missing_approval_does_not_fail (c : GithubController) :
  passes_trigger_gating c = true ->
  run_tests_passed c = true ->
  run_has_required_approval c = false ->
  run_pr_environment_updated c = true ->
  run_prod_plan_generated c = true ->
  outcome (_run_all c) = inr tt
  /\ invocations Op_deploy_to_prod (log_of (_run_all c)) = 0
  /\ (is_auto_deploying_prod c = true ->
      conclusions c ProdDeployment (log_of (_run_all c)) = [Some SKIPPED]
      /\ skip_reasons ProdDeployment (log_of (_run_all c))
         = [reason_not_approved]).
Proof.
  intros Hg Ht Ha He Hp.
  split; [ | split ].
  - rewrite (run_all_outcome c Hg), Ht, Ha, He, Hp. reflexivity.
  - rewrite invocations_count, (run_all_operations c Hg), Ht, Ha, He, Hp.
    cbn [andb]. now case_flags.
  - intros Hauto. unfold conclusions, skip_reasons.
    rewrite (run_all_updates c ProdDeployment Hg), Ht, Ha, He, Hp, Hauto.
    rewrite queue_checks_updates, run_tests_updates,
      required_approval_gate_updates, update_pr_environment_updates,
      prod_plan_gate_updates by discriminate.
    split; reflexivity.
Qed.

Lemma missing_approval_does_not_fail_witness :
  passes_trigger_gating approval_denied = true
  /\ run_tests_passed approval_denied = true
  /\ run_has_required_approval approval_denied = false
  /\ run_pr_environment_updated approval_denied = true
  /\ run_prod_plan_generated approval_denied = true
  /\ outcome (_run_all approval_denied) = inr tt.
Proof.
  repeat (split; [ reflexivity | ]).
  exact (proj1 (missing_approval_does_not_fail approval_denied
                  eq_refl eq_refl eq_refl eq_refl eq_refl)).
Defined.

(** X14.  What [run_tests], [update_pr_environment],
    [get_plan_summary], [deploy_to_prod], [try_merge_pr] and
    [try_invalidate_pr_environment] raise never leaves [_run_all]:
    whether each of them returns or raises, the run returns normally or
    raises one of the three bot errors of its own, for an unsupported
    command, for failed tests, or for a failed step.  (The status
    updates, the reads of the controller's properties and the
    classification of the comment are taken to return.) *)
Theorem run_all_raises_only_bot_errors (c : GithubController) :
  outcome (_run_all c) = inr tt
  \/ outcome (_run_all c) = inl (CICDBotError tests_failed_message)
  \/ outcome (_run_all c) = inl (CICDBotError run_all_failed_message)
  \/ exists text,
      get_command_from_comment c = UNSUPPORTED text
      /\ outcome (_run_all c)
         = inl (CICDBotError (String.append "Unsupported command: " text)).
Proof.
  destruct (passes_trigger_gating c) eqn:Hg.
  - rewrite (run_all_outcome c Hg).
    destruct (run_tests_passed c); [ | now right; left ].
    unfold outcome, verdict. destruct (_ || _); [ right; right; left | left ];
      reflexivity.
  - destruct (run_all_gated_out_outcome c Hg) as [H | H];
      [ now left | now right; right; right ].
Qed.

(** ** The runners one by one *)

(** X9.  [_run_tests] returns [true] exactly when the test run returned
    a successful result.  The conclusion it reports does not tell passed
    from failed tests: it is NEUTRAL, with the result and the output
    attached, whenever the test run returned, and FAILURE, with the
    traceback as output, only when the test run raised. *)
Theorem run_tests_result (c : GithubController) :
  (returned (_run_tests c) = true
   <-> exists r o, run_tests c = inr (r, o) /\ wasSuccessful r = true)
  /\ (forall r o,
         run_tests c = inr (r, o) ->
         updates_of Tests (log_of (_run_tests c)) =
           [(IN_PROGRESS, no_args);
            (COMPLETED,
             {| conclusion := Some NEUTRAL; exception := None;
                result := Some r; output := Some o; summary := None;
                skip_reason := None |})])
  /\ (forall e,
         run_tests c = inl e ->
         updates_of Tests (log_of (_run_tests c)) =
           [(IN_PROGRESS, no_args);
            (COMPLETED,
             {| conclusion := Some FAILURE; exception := None;
                result := None; output := Some (format_exc c e);
                summary := None; skip_reason := None |})])
  /\ outcome (_run_tests c) = inr (returned (_run_tests c)).
Proof.
  split; [ | split; [ | split ] ].
  - unfold returned, _run_tests.
    destruct (run_tests c) as [e | [r o]]; cbn; split.
    + discriminate.
    + intros (r & o & H & _). discriminate H.
    + intros H. now exists r, o.
    + intros (r' & o' & H & Hs). now injection H as <- <-.
  - intros r o H. unfold log_of, _run_tests. now rewrite H.
  - intros e H. unfold log_of, _run_tests. now rewrite H.
  - apply run_tests_returns.
Qed.

(** X10.  [_gen_prod_plan] returns [true] exactly when a non-empty plan
    summary came back.  An empty summary still completes the check
    SUCCESS while the runner returns [false]; an exception completes it
    FAILURE with the error text as summary. *)
Theorem gen_prod_plan_result (c : GithubController) :
  (returned (_gen_prod_plan c) = true
   <-> exists s, get_plan_summary c = inr s /\ s <> "")
  /\ (forall s,
         get_plan_summary c = inr s ->
         updates_of ProdPlanPreview (log_of (_gen_prod_plan c)) =
           [(IN_PROGRESS, no_args);
            (COMPLETED,
             {| conclusion := Some SUCCESS; exception := None;
                result := None; output := None; summary := Some s;
                skip_reason := None |})])
  /\ (get_plan_summary c = inr "" ->
      conclusions c ProdPlanPreview (log_of (_gen_prod_plan c))
      = [Some SUCCESS]
      /\ returned (_gen_prod_plan c) = false)
  /\ (forall e,
         get_plan_summary c = inl e ->
         updates_of ProdPlanPreview (log_of (_gen_prod_plan c)) =
           [(IN_PROGRESS, no_args);
            (COMPLETED,
             {| conclusion := Some FAILURE; exception := None;
                result := None; output := None; summary := Some (str e);
                skip_reason := None |})]
         /\ returned (_gen_prod_plan c) = false)
  /\ outcome (_gen_prod_plan c) = inr (returned (_gen_prod_plan c)).
Proof.
  split; [ | split; [ | split; [ | split ] ] ].
  - unfold returned, _gen_prod_plan.
    destruct (get_plan_summary c) as [e | s]; cbn; split.
    + discriminate.
    + intros (s & H & _). discriminate H.
    + intros H. exists s. split; [ reflexivity | ].
      intros ->. discriminate H.
    + intros (s' & H & Hs). injection H as <-.
      destruct s; [ now contradiction Hs | reflexivity ].
  - intros s H. unfold log_of, _gen_prod_plan. now rewrite H.
  - intros H. unfold log_of, returned, _gen_prod_plan. now rewrite H.
  - intros e H. unfold log_of, returned, _gen_prod_plan. now rewrite H.
  - apply gen_prod_plan_returns.
Qed.

(** ** The commands *)

Lemma raise_unless_returns (m : M bool) (e : Exn) :
  snd m = inr (returned m) ->
  (ok <- m;; if negb ok then raise e else ret tt)
  = (fst m, if returned m then inr tt else inl e).
Proof.
  intros H. rewrite (bind_value _ _ H).
  destruct (returned m); cbn; now rewrite app_nil_r.
Qed.

(** X13.  The [deploy_production] command returns normally exactly when
    the deployment, the merge and the teardown all returned.  When the
    deployment went through and a follow-up raised, the command raises
    its bot error although production was deployed. *)
Theorem deploy_production_command_result (c : GithubController) :
  (outcome (Cli.deploy_production c) = inr tt
   <-> (deploy_to_prod c = inr tt
        /\ try_merge_pr c = inr tt
        /\ try_invalidate_pr_environment c = inr tt))
  /\ (deploy_to_prod c = inr tt ->
      follow_up_raises c = true ->
      hd_error (conclusions c ProdDeployment
                  (log_of (Cli.deploy_production c))) = Some (Some SUCCESS)
      /\ outcome (Cli.deploy_production c) =
           inl (CICDBotError
                  "Failed to deploy to production. See check status for more information.")).
Proof.
  assert (Hc : Cli.deploy_production c =
                 (fst (_deploy_production c),
                  if returned (_deploy_production c) then inr tt
                  else inl (CICDBotError
                              "Failed to deploy to production. See check status for more information."))).
  { apply raise_unless_returns, deploy_production_returns. }
  rewrite Hc. unfold outcome, log_of. cbn [fst snd]. split.
  - rewrite <- deploy_production_succeeds_iff.
    destruct (returned (_deploy_production c)); split; intros;
      congruence.
  - intros Hd Hf. unfold returned, _deploy_production.
    unfold follow_up_raises in Hf. rewrite Hd in *.
    destruct (try_merge_pr c) as [[] | []]; cbn;
      try (split; reflexivity).
    destruct (try_invalidate_pr_environment c) as [[] | []]; cbn;
      try (split; reflexivity).
    discriminate Hf.
Qed.

Lemma deploy_production_command_result_witness :
  deploy_to_prod merge_raises = inr tt
  /\ follow_up_raises merge_raises = true
  /\ outcome (Cli.deploy_production merge_raises) =
       inl (CICDBotError
              "Failed to deploy to production. See check status for more information.").
Proof.
  split; [ reflexivity | split; [ reflexivity | ] ].
  exact (proj2 (proj2 (deploy_production_command_result merge_raises)
                  eq_refl eq_refl)).
Defined.

(** ** Two edge cases of a whole run *)

(** X12.  An empty plan summary fails the run.  When the tests passed,
    the PR environment was updated and the plan summary comes back
    empty, the plan preview is completed SUCCESS and yet no plan counts
    as generated: nothing is deployed and the run raises the run-all bot
    error. *)
Theorem empty_plan_fails_run (c : GithubController) :
  passes_trigger_gating c = true ->
  run_tests_passed c = true ->
  run_pr_environment_updated c = true ->
  get_plan_summary c = inr "" ->
  conclusions c ProdPlanPreview (log_of (_run_all c)) = [Some SUCCESS]
  /\ run_prod_plan_generated c = false
  /\ invocations Op_deploy_to_prod (log_of (_run_all c)) = 0
  /\ outcome (_run_all c) = inl run_all_failed.
Proof.
  intros Hg Ht He Hs.
  assert (Hp : run_prod_plan_generated c = false).
  { unfold run_prod_plan_generated. rewrite He.
    unfold prod_plan_gate, returned, _gen_prod_plan. now rewrite Hs. }
  split; [ | split; [ exact Hp | split ] ].
  - unfold conclusions.
    rewrite (run_all_updates c ProdPlanPreview Hg), Ht, He.
    rewrite queue_checks_updates, run_tests_updates,
      required_approval_gate_updates, update_pr_environment_updates,
      deployment_decision_updates by discriminate.
    unfold prod_plan_gate, _gen_prod_plan. now rewrite Hs.
  - rewrite invocations_count, (run_all_operations c Hg), Ht, He, Hp.
    rewrite andb_false_r. now case_flags.
  - rewrite (run_all_outcome c Hg), Ht, He, Hp. reflexivity.
Qed.

Lemma empty_plan_fails_run_witness :
  passes_trigger_gating empty_plan = true
  /\ run_tests_passed empty_plan = true
  /\ run_pr_environment_updated empty_plan = true
  /\ get_plan_summary empty_plan = inr ""
  /\ conclusions empty_plan ProdPlanPreview (log_of (_run_all empty_plan))
     = [Some SUCCESS]
  /\ outcome (_run_all empty_plan) = inl run_all_failed.
Proof.
  pose proof (empty_plan_fails_run empty_plan eq_refl eq_refl eq_refl eq_refl)
    as (Hc & _ & _ & Ho).
  do 4 (split; [ reflexivity | ]).
  split; [ exact Hc | exact Ho ].
Defined.

(** X15.  Failed tests stop the run.  When the tests runner returned
    [false], be it for failed tests or because the test run raised,
    [_run_all] updates no environment, asks for no plan, deploys, merges
    and tears down nothing, and raises the failed-tests bot error; when
    the test run raised, the tests check is concluded FAILURE. *)
Theorem failed_tests_stop_the_run (c : GithubController) :
  passes_trigger_gating c = true ->
  run_tests_passed c = false ->
  invocations Op_update_pr_environment (log_of (_run_all c)) = 0
  /\ invocations Op_get_plan_summary (log_of (_run_all c)) = 0
  /\ invocations Op_deploy_to_prod (log_of (_run_all c)) = 0
  /\ invocations Op_try_merge_pr (log_of (_run_all c)) = 0
  /\ invocations Op_try_invalidate_pr_environment (log_of (_run_all c)) = 0
  /\ outcome (_run_all c) = inl (CICDBotError tests_failed_message)
  /\ (forall e,
         run_tests c = inl e ->
         conclusions c Tests (log_of (_run_all c)) = [Some FAILURE]).
Proof.
  intros Hg Ht.
  assert (Hi : forall op,
             op <> Op_get_command_from_comment -> op <> Op_run_tests ->
             op <> Op_has_required_approval ->
             invocations op (log_of (_run_all c)) = 0).
  { intros op H1 H2 H3.
    rewrite invocations_count, (run_all_operations c Hg), Ht.
    destruct op; try congruence; now case_flags. }
  repeat (split; [ apply Hi; discriminate | ]).
  split.
  - now rewrite (run_all_outcome c Hg), Ht.
  - intros e He. unfold conclusions.
    rewrite (run_all_updates c Tests Hg), Ht.
    rewrite queue_checks_updates, required_approval_gate_updates,
      tests_failed_log by discriminate.
    unfold _run_tests. rewrite He.
    now destruct (is_auto_deploying_prod c).
Qed.

Lemma failed_tests_stop_the_run_witness :
  passes_trigger_gating broken_tests = true
  /\ run_tests_passed broken_tests = false
  /\ invocations Op_update_pr_environment (log_of (_run_all broken_tests)) = 0
  /\ conclusions broken_tests Tests (log_of (_run_all broken_tests))
     = [Some FAILURE].
Proof.
  pose proof (failed_tests_stop_the_run broken_tests eq_refl eq_refl)
    as (Hi & _ & _ & _ & _ & _ & Hc).
  split; [ reflexivity | split; [ reflexivity | ] ].
  split; [ exact Hi | exact (Hc _ eq_refl) ].
Defined.
